(** * Jennly666/Testing: the white-box flow graph, the username validator
      and the testing summary, embedded and verified

    The development follows the three source files that carry logic:

    - [src/flow_graph_visualization.py]: the control-flow graph of
      [UserRepository.update()] (module [FlowGraph]);
    - [src/tests/test_simple_validation.py]: [validate_username]
      (module [Validation]);
    - [src/final_testing_summary.py]: the scan of the project tree, the
      testing strategy, the metrics and the printed report
      (module [Summary]).

    Definitions come first, one module per source file; the theorems follow. *)

From Stdlib Require Import ZArith List String Ascii Lia Floats Uint63 Sorted Permutation.
From stdpp Require Import gmap strings list pretty.

Open Scope string_scope.
Open Scope list_scope.
Open Scope nat_scope.

(** ** Python strings that the code only compares with ASCII literals

    Paths, dictionary keys, colours and labels are Rocq [string]s holding the
    UTF-8 bytes of the Python [str].  A line break inside a label is the
    byte 10. *)

Definition nl : string := String (ascii_of_nat 10) EmptyString.

(** [l.append(x)] on a Python list. *)
Definition append {A : Type} (l : list A) (x : A) : list A := (l ++ [x])%list.

(* ================================================================== *)
(** * [flow_graph_visualization.py] *)
(* ================================================================== *)

Module FlowGraph.

(** [nodes] (lines 20-35): a dict literal, kept in insertion order as
    Python iterates it; node_id ↦ (x, y, text).  Identifiers and
    coordinates are non-negative integer literals. *)
Definition nodes : list (nat * (nat * nat * string)) :=
  [ (1,  (5, 15, "1. user = get_by_id()"));
    (2,  (5, 14, "2. if user is None"));
    (3,  (2, 13, "3. raise HTTPException" +:+ nl +:+ "(404)"));
    (4,  (5, 12, "4. update_data = " +:+ nl +:+ "model_dump()"));
    (5,  (5, 11, "5. if 'email' in " +:+ nl +:+ "update_data"));
    (6,  (3, 10, "6. existing_user = " +:+ nl +:+ "get_by_email()"));
    (7,  (3, 9,  "7. if existing_user and " +:+ nl +:+ "existing_user.id != id"));
    (8,  (1, 8,  "8. raise HTTPException" +:+ nl +:+ "(400)"));
    (9,  (5, 8,  "9. for key, value in " +:+ nl +:+ "update_data.items()"));
    (10, (5, 7,  "10. setattr(user, " +:+ nl +:+ "key, value)"));
    (11, (5, 6,  "11. user.updated_at = " +:+ nl +:+ "datetime.now()"));
    (12, (5, 5,  "12. session.commit()"));
    (13, (5, 4,  "13. session.refresh()"));
    (14, (5, 3,  "14. return user")) ].

(** [edges] (lines 60-76): (start, end, label). *)
Definition edges : list (nat * nat * string) :=
  [ (1, 2, "");
    (2, 3, "user is None");
    (2, 4, "user exists");
    (4, 5, "");
    (5, 6, "email in data");
    (5, 9, "no email");
    (6, 7, "");
    (7, 8, "email taken");
    (7, 9, "email ok");
    (9, 10, "has items");
    (10, 9, "loop back");
    (9, 11, "loop end");
    (11, 12, "");
    (12, 13, "");
    (13, 14, "") ].

(** The dict as a finite map, for [nodes[start]] and [nodes[end]]. *)
Definition nodes_dict : gmap nat (nat * nat * string) := list_to_map nodes.

Definition node_ids : list nat := nodes.*1.

(** The kind of a node is the branch of the colouring chain that draws it
    (lines 39-44); the legend (lines 113-117) names the three colours. *)
Inductive kind := Exception | Predicate | Ordinary.

Definition kind_eqb (a b : kind) : bool :=
  match a, b with
  | Exception, Exception | Predicate, Predicate | Ordinary, Ordinary => true
  | _, _ => false
  end.

Definition node_kind (node_id : nat) : kind :=
  if bool_decide (node_id ∈ [3; 8]) then Exception
  else if bool_decide (node_id ∈ [2; 5; 7; 9]) then Predicate
  else Ordinary.

Definition kind_color (k : kind) : string :=
  match k with
  | Exception => "#ffcccc"
  | Predicate => "#ffffcc"
  | Ordinary => "#ccffcc"
  end.

Definition node_color (node_id : nat) : string := kind_color (node_kind node_id).

Definition nodes_of_kind (k : kind) : list nat :=
  List.filter (λ n, kind_eqb (node_kind n) k) node_ids.

Definition predicate_nodes : list nat := nodes_of_kind Predicate.
Definition exception_nodes : list nat := nodes_of_kind Exception.

(** The colour of the arrow drawn for an edge (lines 84-103). *)
Definition arrow_color (start end_ : nat) : string :=
  if bool_decide (start = 2) && bool_decide (end_ = 3) then "red"
  else if bool_decide (start = 5) && bool_decide (end_ = 9) then "blue"
  else if bool_decide (start = 7) && bool_decide (end_ = 8) then "red"
  else if bool_decide (start = 10) && bool_decide (end_ = 9) then "purple"
  else "black".

(** *** The graph that the two lists define *)

Definition has_edge (a b : nat) : bool :=
  existsb (λ e, bool_decide (e.1.1 = a) && bool_decide (e.1.2 = b)) edges.

Definition successors (a : nat) : list nat :=
  (List.filter (λ e, bool_decide (e.1.1 = a)) edges).*1.*2.

Definition predecessors (b : nat) : list nat :=
  (List.filter (λ e, bool_decide (e.1.2 = b)) edges).*1.*1.

Definition out_degree (a : nat) : nat := length (successors a).

(** A path is the list of the nodes it visits; it is a walk when every
    consecutive pair is an edge. *)
Fixpoint is_walk (p : list nat) : bool :=
  match p with
  | a :: (b :: _) as rest => has_edge a b && is_walk rest
  | _ => true
  end.

Fixpoint consecutive_pairs (p : list nat) : list (nat * nat) :=
  match p with
  | a :: (b :: _) as rest => (a, b) :: consecutive_pairs rest
  | _ => []
  end.

Definition entry : nat := 1.

Definition is_terminal (n : nat) : bool := bool_decide (successors n = []).

(** A documented path is complete when it is a walk from the entry node to
    a node without outgoing edges. *)
Definition complete_path (p : list nat) : bool :=
  is_walk p && bool_decide (head p = Some entry) &&
  match last p with Some n => is_terminal n | None => false end.

(** Two nodes are linked when an edge joins them in either direction;
    [component_of] collects the nodes linked to a start node, and
    [components] counts the classes. *)
Definition neighbours (n : nat) : list nat := successors n ++ predecessors n.

Fixpoint component_of (fuel : nat) (todo seen : list nat) : list nat :=
  match fuel with
  | O => seen
  | S fuel' =>
      match todo with
      | [] => seen
      | n :: rest =>
          if bool_decide (n ∈ seen) then component_of fuel' rest seen
          else component_of fuel' (neighbours n ++ rest) (n :: seen)
      end
  end.

Fixpoint components_from (fuel : nat) (unvisited : list nat) : nat :=
  match fuel with
  | O => 0
  | S fuel' =>
      match unvisited with
      | [] => 0
      | n :: rest =>
          let c := component_of (length nodes + 2 * length edges + 1) [n] [] in
          S (components_from fuel' (List.filter (λ m, negb (bool_decide (m ∈ c))) rest))
      end
  end.

Definition components : nat := components_from (length nodes) node_ids.

(** McCabe's formula on Python integers. *)
Definition cyclomatic (E N P : Z) : Z := (E - N + 2 * P)%Z.

Definition graph_E : Z := Z.of_nat (length edges).
Definition graph_N : Z := Z.of_nat (length nodes).
Definition graph_P : Z := Z.of_nat components.

(** *** [complexity_text] (lines 121-138)

    The figures and the basis of independent paths that the text box of
    the diagram states, transcribed line by line. *)
Record complexity_figures := {
  doc_E : Z;                 (* "E = 15" *)
  doc_N : Z;                 (* "N = 14" *)
  doc_P : Z;                 (* "P = 1" *)
  doc_M_formula : Z;         (* "M = 15 - 14 + 2(1) = 3" *)
  doc_predicates : Z;        (* "4" predicate nodes *)
  doc_M_predicates : Z;      (* "M = 4 + 1 = 5" *)
  doc_paths : list (list nat)
}.

Definition path_1 : list nat := [1; 2; 3].
Definition path_2 : list nat := [1; 2; 4; 5; 9; 11; 12; 13; 14].
Definition path_3 : list nat := [1; 2; 4; 5; 6; 7; 8].
Definition path_4 : list nat := [1; 2; 4; 5; 6; 7; 9; 10; 11; 12; 13; 14].
Definition path_5 : list nat := [1; 2; 4; 5; 6; 7; 9; 11; 12; 13; 14].

Definition complexity_text : complexity_figures :=
  {| doc_E := 15; doc_N := 14; doc_P := 1; doc_M_formula := 3;
     doc_predicates := 4; doc_M_predicates := 5;
     doc_paths := [path_1; path_2; path_3; path_4; path_5] |}.

(** What [create_flow_graph] puts on the figure: a coloured box per node,
    an arrow per edge, and the text box.  The pixel arithmetic of the
    arrows (floats) is left out. *)
Record figure := {
  boxes : list (nat * nat * nat * string * string);   (* id, x, y, facecolor, text *)
  arrows : list (nat * nat * string * string);    (* start, end, colour, label *)
  text_box : complexity_figures
}.

Definition create_flow_graph : figure :=
  {| boxes := map (λ '(node_id, (x, y, text)), (node_id, x, y, node_color node_id, text)) nodes;
     arrows := map (λ '(start, end_, label), (start, end_, arrow_color start end_, label)) edges;
     text_box := complexity_text |}.

(** [create_complexity_analysis] (lines 152-153, 168-170): the bars of the
    two charts. *)
Definition methods : list string := ["M = E - N + 2P"; "Предикаты + 1"; "Регионы графа"].
Definition values : list Z := [5; 5; 5]%Z.
Definition paths : list string :=
  [ "Путь 1" +:+ nl +:+ "(user=None)"; "Путь 2" +:+ nl +:+ "(без email)";
    "Путь 3" +:+ nl +:+ "(email занят)"; "Путь 4" +:+ nl +:+ "(с email)";
    "Путь 5" +:+ nl +:+ "(цикл пустой)" ].
Definition coverage : list Z := [100; 100; 100; 100; 100]%Z.

Definition create_complexity_analysis : list (string * Z) * list (string * Z) :=
  (zip methods values, zip paths coverage).

End FlowGraph.

(* ================================================================== *)
(** * [tests/test_simple_validation.py] *)
(* ================================================================== *)

Module Validation.

(** A Python [str] is a sequence of code points.  [str.strip], [str.isdigit]
    and [str.isalnum] consult the Unicode tables of the interpreter, which
    are no part of the repository: they are an interface here, one
    classifier per table. *)
Class Unicode (char : Type) := {
  isspace : char → bool;
  isdigit : char → bool;
  isalnum : char → bool
}.

Record result := { valid : bool; errors : list string }.

Definition E_empty : string := "Имя пользователя не может быть пустым".
Definition E_short : string := "Имя пользователя должно содержать минимум 2 символа".
Definition E_long : string := "Имя пользователя не должно превышать 30 символов".
Definition E_digits : string := "Имя пользователя не может состоять только из цифр".
Definition E_alnum : string := "Имя пользователя должно содержать только буквы и цифры".

Section validate.
Context {char : Type} `{Unicode char}.

Definition str_empty (s : list char) : bool :=
  match s with [] => true | _ :: _ => false end.

Fixpoint lstrip (s : list char) : list char :=
  match s with
  | c :: rest => if isspace c then lstrip rest else s
  | [] => []
  end.

Definition rstrip (s : list char) : list char := rev (lstrip (rev s)).

Definition strip (s : list char) : list char := rstrip (lstrip s).

(** [s.isdigit()], [s.isalnum()]: every character is in the class and
    there is at least one character. *)
Definition str_isdigit (s : list char) : bool := negb (str_empty s) && forallb isdigit s.
Definition str_isalnum (s : list char) : bool := negb (str_empty s) && forallb isalnum s.

(** [validate_username] (lines 9-34).  [errors] is the list that the
    function appends to, threaded through the statements. *)
Definition validate_username (username : list char) : result :=
  let errors : list string := [] in
  if str_empty username || str_empty (strip username) then
    let errors := append errors E_empty in
    {| valid := false; errors := errors |}
  else
    let errors :=
      if (length username <? 2)%nat then append errors E_short
      else if (30 <? length username)%nat then append errors E_long
      else errors in
    let errors := if str_isdigit username then append errors E_digits else errors in
    let errors := if negb (str_isalnum username) then append errors E_alnum else errors in
    {| valid := (length errors =? 0)%nat; errors := errors |}.

End validate.

(** The input column of [test_summary_table] (lines 179-181): long inputs
    are cut to seven characters and three dots, and the cell is padded to
    the left-aligned width 14 of the format [{display_input:<14}]. *)
Definition display_input {char : Type} (dot : char) (input_data : list char) : list char :=
  if length input_data <=? 10 then input_data
  else take 7 input_data ++ [dot; dot; dot].

(** [f"{s:<width}"]. *)
Definition ljust {char : Type} (space : char) (width : nat) (s : list char) : list char :=
  s ++ replicate (width - length s) space.

Definition input_cell {char : Type} (dot space : char) (input_data : list char) : list char :=
  ljust space 14 (display_input dot input_data).

(** The ASCII part of the tables, enough to run the inputs of the tests. *)
Definition ascii_between (lo hi : nat) (c : ascii) : bool :=
  ((lo <=? nat_of_ascii c) && (nat_of_ascii c <=? hi))%nat.

Definition ascii_isspace (c : ascii) : bool :=
  ascii_between 9 13 c || ascii_between 28 32 c.
Definition ascii_isdigit (c : ascii) : bool := ascii_between 48 57 c.
Definition ascii_isalnum (c : ascii) : bool :=
  ascii_isdigit c || ascii_between 65 90 c || ascii_between 97 122 c.

#[export] Instance ascii_unicode : Unicode ascii :=
  {| isspace := ascii_isspace; isdigit := ascii_isdigit; isalnum := ascii_isalnum |}.

Definition validate_ascii (s : string) : result :=
  validate_username (list_ascii_of_string s).

End Validation.

(* ================================================================== *)
(** * [final_testing_summary.py] *)
(* ================================================================== *)

Module Summary.

(** [needle in haystack] on [str]. *)
Fixpoint startswith (prefix s : string) : bool :=
  match prefix, s with
  | EmptyString, _ => true
  | String a prefix', String b s' => Ascii.eqb a b && startswith prefix' s'
  | String _ _, EmptyString => false
  end.

Fixpoint contains (needle haystack : string) : bool :=
  startswith needle haystack ||
  match haystack with
  | EmptyString => false
  | String _ rest => contains needle rest
  end.

(** [s.upper()], exact on the ASCII keys it is applied to. *)
Definition upper_ascii (c : ascii) : ascii :=
  let n := nat_of_ascii c in
  if ((97 <=? n) && (n <=? 122))%nat then ascii_of_nat (n - 32) else c.

Fixpoint upper (s : string) : string :=
  match s with
  | EmptyString => EmptyString
  | String c rest => String (upper_ascii c) (upper rest)
  end.

Fixpoint str_repeat (s : string) (n : nat) : string :=
  match n with
  | O => ""
  | S n' => s +:+ str_repeat s n'
  end.

Fixpoint join (sep : string) (l : list string) : string :=
  match l with
  | [] => ""
  | [x] => x
  | x :: rest => x +:+ sep +:+ join sep rest
  end.

(** The scanned tree: [str(file_path.relative_to(project_root))] for every
    path that [project_root.rglob("*.py")] yields, in the order it yields
    them. *)
Definition file_tree := list string.

(** The keys of [components] in the order of the dict literal (lines 15-24),
    which is the order [components.items()] iterates in. *)
Definition component_keys : list string :=
  ["models"; "repositories"; "services"; "utils"; "api"; "database"; "config"; "tests"].

Definition initial_components : gmap string (list string) :=
  list_to_map (map (λ k, (k, [])) component_keys).

(** [components[key].append(path)]; [None] is the [KeyError] of a missing key. *)
Definition append_to (key path : string) (components : gmap string (list string))
  : option (gmap string (list string)) :=
  l ← components !! key;
  Some (<[key := append l path]> components).

(** The body of the scan loop (lines 28-45). *)
Definition classify (relative_path : string) (components : gmap string (list string))
  : option (gmap string (list string)) :=
  if contains "models" relative_path then
    append_to "models" relative_path components
  else if contains "repository" relative_path then
    append_to "repositories" relative_path components
  else if contains "services" relative_path then
    append_to "services" relative_path components
  else if contains "utils" relative_path then
    append_to "utils" relative_path components
  else if contains "main.py" relative_path || contains "api" relative_path then
    append_to "api" relative_path components
  else if contains "database" relative_path || contains "db" relative_path then
    append_to "database" relative_path components
  else if contains "config" relative_path then
    append_to "config" relative_path components
  else if contains "test" relative_path then
    append_to "tests" relative_path components
  else Some components.

Fixpoint scan (files : list string) (components : gmap string (list string))
  : option (gmap string (list string)) :=
  match files with
  | [] => Some components
  | relative_path :: rest =>
      components' ← classify relative_path components;
      scan rest components'
  end.

(** [analyze_project_structure] (lines 10-47). *)
Definition analyze_project_structure (tree : file_tree)
  : option (gmap string (list string)) :=
  scan tree initial_components.

(** The chain read as a table, in the words of its description: the rules
    in their fixed order, each with the list it selects; a path goes to the
    list of the first rule that matches it, and to no list when none does.
    [classify] above is the code; the theorems compare the two. *)
Definition rules : list ((string → bool) * string) :=
  [ (contains "models", "models");
    (contains "repository", "repositories");
    (contains "services", "services");
    (contains "utils", "utils");
    (λ p, contains "main.py" p || contains "api" p, "api");
    (λ p, contains "database" p || contains "db" p, "database");
    (contains "config", "config");
    (contains "test", "tests") ].

Definition first_matching_rule (relative_path : string) : option string :=
  snd <$> List.find (λ rule, rule.1 relative_path) rules.

Definition assigned (key : string) (tree : file_tree) : list string :=
  List.filter (λ p, bool_decide (first_matching_rule p = Some key)) tree.

(** The invariant of the scan loop: after the files [done], every list of
    [components] holds the files of [done] that its rule selects first, in
    scan order, and there are no other keys. *)
Definition scanned (done : list string) (components : gmap string (list string)) : Prop :=
  ∀ key, components !! key =
         if bool_decide (key ∈ component_keys) then Some (assigned key done) else None.

(** The ten substrings that the chain looks for; a path that holds none of
    them falls through every branch. *)
Definition needles : list string :=
  ["models"; "repository"; "services"; "utils"; "main.py"; "api";
   "database"; "db"; "config"; "test"].

Definition unclassified (relative_path : string) : bool :=
  forallb (λ needle, negb (contains needle relative_path)) needles.

Record component_strategy := {
  type : string;
  focus : string;
  techniques : list string;
  priority : string;
  files : list string
}.

(** [generate_testing_strategy] (lines 50-100); the dict literal is kept as
    the list of its items, since the callers only iterate it. *)
Definition generate_testing_strategy (tree : file_tree)
  : option (list (string * component_strategy)) :=
  components ← analyze_project_structure tree;
  models ← components !! "models";
  repositories ← components !! "repositories";
  services ← components !! "services";
  utils ← components !! "utils";
  api ← components !! "api";
  database ← components !! "database";
  Some
    [ ("models",
       {| type := "Unit Testing";
          focus := "Валидация данных, сериализация/десериализация";
          techniques := ["Black-box"; "Boundary Value Analysis"];
          priority := "HIGH";
          files := models |});
      ("repositories",
       {| type := "Unit + Integration Testing";
          focus := "CRUD операции, обработка ошибок БД";
          techniques := ["White-box"; "Path Coverage"; "Mock Testing"];
          priority := "HIGH";
          files := repositories |});
      ("services",
       {| type := "Unit + Integration Testing";
          focus := "Бизнес-логика, обработка исключений";
          techniques := ["White-box"; "Decision Coverage"; "Error Handling"];
          priority := "HIGH";
          files := services |});
      ("utils",
       {| type := "Unit Testing";
          focus := "Утилитарные функции, хеширование";
          techniques := ["Black-box"; "Equivalence Partitioning"];
          priority := "MEDIUM";
          files := utils |});
      ("api",
       {| type := "Integration + System Testing";
          focus := "HTTP endpoints, аутентификация";
          techniques := ["End-to-End"; "API Testing"];
          priority := "HIGH";
          files := api |});
      ("database",
       {| type := "Integration Testing";
          focus := "Подключения, миграции";
          techniques := ["Database Testing"; "Transaction Testing"];
          priority := "MEDIUM";
          files := database |}) ].

(** [sum] over Python integers. *)
Definition sum_nat (l : list nat) : nat := foldl Nat.add 0%nat l.
Definition sum_Z (l : list Z) : Z := foldl Z.add 0%Z l.

(** [a / b] on Python integers is the correctly rounded quotient; for
    operands below 2^53 that is the binary64 division of the two operands,
    each converted exactly.  [None] is [ZeroDivisionError]. *)
Definition float_of_int (z : Z) : float := PrimFloat.of_uint63 (Uint63.of_Z z).

Definition truediv (a b : Z) : option float :=
  if bool_decide (b = 0%Z) then None
  else Some (PrimFloat.div (float_of_int a) (float_of_int b)).

Record metrics := {
  total_files : nat;
  high_priority_files : nat;
  estimated_coverage : list (string * Z);
  average_coverage : float
}.

(** [calculate_testing_metrics] (lines 103-127). *)
Definition calculate_testing_metrics (tree : file_tree) : option metrics :=
  strategy ← generate_testing_strategy tree;
  let total_files :=
    sum_nat (map (λ component, length (files component)) strategy.*2) in
  let high_priority_files :=
    sum_nat (map (λ component, length (files component))
               (List.filter (λ component, String.eqb (priority component) "HIGH")
                  strategy.*2)) in
  let estimated_coverage : list (string * Z) :=
    [ ("models", 85); ("repositories", 75); ("services", 70);
      ("utils", 90); ("api", 60); ("database", 50) ]%Z in
  average ← truediv (sum_Z estimated_coverage.*2)
                    (Z.of_nat (length estimated_coverage));
  Some {| total_files := total_files;
          high_priority_files := high_priority_files;
          estimated_coverage := estimated_coverage;
          average_coverage := average |}.

(** The exact value of a binary64 number, as the fraction [num / 2^k]. *)
Definition exact_value (x : float) : option (Z * Z) :=
  match Prim2SF x with
  | S754_zero _ => Some (0, 1)%Z
  | S754_finite s m e =>
      let m' := if s then Z.neg m else Z.pos m in
      if (0 <=? e)%Z then Some (m' * 2 ^ e, 1)%Z else Some (m', 2 ^ (- e))%Z
  | _ => None
  end.

(** Rounding [num / den] ([den > 0], [num >= 0]) to the nearest integer,
    ties to even: what the [.1f] conversion does with the tenths. *)
Definition round_half_even (num den : Z) : Z :=
  let q := (num / den)%Z in
  let r := (num mod den)%Z in
  if (2 * r <? den)%Z then q
  else if (den <? 2 * r)%Z then (q + 1)%Z
  else if Z.even q then q else (q + 1)%Z.

(** [f"{x:.1f}"]. *)
Definition format_1f (x : float) : string :=
  match Prim2SF x with
  | S754_nan => "nan"
  | S754_infinity s => if s then "-inf" else "inf"
  | S754_zero s => if s then "-0.0" else "0.0"
  | S754_finite s m e =>
      let tenths :=
        if (0 <=? e)%Z then (Z.pos m * 2 ^ e * 10)%Z
        else round_half_even (Z.pos m * 10) (2 ^ (- e)) in
      (if s then "-" else "") +:+ pretty (tenths / 10)%Z +:+ "." +:+
      pretty (tenths mod 10)%Z
  end.

(** [generate_test_cases_summary] (lines 130-175).  The inner dicts do not
    all have the same keys: a key that a dict lacks is [None] here, and
    ['complexity' in details] is the test for [Some]. *)
Record test_case := {
  case_type : string;
  complexity : option nat;
  paths_covered : option nat;
  equivalence_classes : option nat;
  boundary_values : option nat;
  test_cases : option nat;
  checklists : option nat;
  endpoints : option nat;
  case_techniques : list string;
  status : string
}.

Definition generate_test_cases_summary : list (string * test_case) :=
  [ ("UserRepository.update()",
     {| case_type := "White-box";
        complexity := Some 5; paths_covered := Some 5;
        equivalence_classes := None; boundary_values := None;
        test_cases := None; checklists := None; endpoints := None;
        case_techniques := ["Cyclomatic Complexity"; "Path Coverage"];
        status := "✅ Implemented" |});
    ("Username Validation",
     {| case_type := "Black-box";
        complexity := None; paths_covered := None;
        equivalence_classes := Some 4; boundary_values := Some 6;
        test_cases := None; checklists := None; endpoints := None;
        case_techniques := ["Equivalence Partitioning"; "Boundary Value Analysis"];
        status := "✅ Implemented" |});
    ("Role Management",
     {| case_type := "Integration";
        complexity := None; paths_covered := None;
        equivalence_classes := None; boundary_values := None;
        test_cases := Some 4; checklists := Some 2; endpoints := None;
        case_techniques := ["Test Cases"; "Checklists"];
        status := "✅ Implemented" |});
    ("Password Hashing",
     {| case_type := "Unit";
        complexity := None; paths_covered := None;
        equivalence_classes := None; boundary_values := None;
        test_cases := Some 3; checklists := None; endpoints := None;
        case_techniques := ["Positive/Negative Testing"];
        status := "🔄 Recommended" |});
    ("Email Validation",
     {| case_type := "Unit";
        complexity := None; paths_covered := None;
        equivalence_classes := None; boundary_values := None;
        test_cases := Some 5; checklists := None; endpoints := None;
        case_techniques := ["Regex Testing"; "Format Validation"];
        status := "🔄 Recommended" |});
    ("API Endpoints",
     {| case_type := "System";
        complexity := None; paths_covered := None;
        equivalence_classes := None; boundary_values := None;
        test_cases := None; checklists := None; endpoints := Some 8;
        case_techniques := ["HTTP Testing"; "Authentication Testing"];
        status := "🔄 Recommended" |}) ].

(** [sorted(set(l))] on strings: Python orders [str] by code points, which
    is the order of the UTF-8 bytes. *)
Fixpoint insert_sorted (x : string) (l : list string) : list string :=
  match l with
  | [] => [x]
  | y :: rest => if String.leb x y then x :: l else y :: insert_sorted x rest
  end.

Definition sorted_set (l : list string) : list string :=
  foldr insert_sorted [] (remove_dups l).

(** [enumerate(l, 1)]. *)
Definition enumerate_from_1 {A : Type} (l : list A) : list (nat * A) :=
  imap (λ i x, (S i, x)) l.

(** *** [print_comprehensive_report] (lines 178-284)

    One string per call of [print]. *)

Definition print_component (component : string) (files : list string) : list string :=
  match files with
  | [] => []
  | _ :: _ =>
      [upper component +:+ ": " +:+ pretty (length files) +:+ " файлов"]
      ++ map (λ file, "  - " +:+ file) (take 3 files)
      ++ (if 3 <? length files
          then ["  ... и еще " +:+ pretty (length files - 3) +:+ " файлов"]
          else [])
  end.

Definition print_strategy (component : string) (details : component_strategy)
  : list string :=
  match files details with
  | [] => []
  | _ :: _ =>
      [ nl +:+ upper component +:+ ":";
        "  Тип: " +:+ type details;
        "  Фокус: " +:+ focus details;
        "  Техники: " +:+ join ", " (techniques details);
        "  Приоритет: " +:+ priority details;
        "  Файлов: " +:+ pretty (length (files details)) ]
  end.

Definition print_metrics (m : metrics) : list string :=
  [ "Общее количество файлов: " +:+ pretty (total_files m);
    "Файлов высокого приоритета: " +:+ pretty (high_priority_files m);
    "Средний ожидаемый охват: " +:+ format_1f (average_coverage m) +:+ "%";
    nl +:+ "Ожидаемое покрытие по компонентам:" ]
  ++ map (λ '(component, coverage), "  " +:+ component +:+ ": " +:+ pretty coverage +:+ "%")
       (estimated_coverage m).

(** Sections 4 to 7 (lines 222-284) read no file. *)
Definition print_implemented (test_name : string) (details : test_case) : list string :=
  ["  - " +:+ test_name +:+ " (" +:+ case_type details +:+ ")"]
  ++ from_option (λ n, ["    Цикломатическая сложность: " +:+ pretty n]) [] (complexity details)
  ++ from_option (λ n, ["    Покрытых путей: " +:+ pretty n]) [] (paths_covered details)
  ++ from_option (λ n, ["    Классов эквивалентности: " +:+ pretty n]) []
       (equivalence_classes details).

Definition print_tests_and_advice : list string :=
  let test_cases := generate_test_cases_summary in
  let implemented :=
    List.filter (λ '(name, details), startswith "✅" (status details)) test_cases in
  let recommended :=
    List.filter (λ '(name, details), startswith "🔄" (status details)) test_cases in
  let techniques_used := sorted_set (concat (map (λ '(_, details), case_techniques details) test_cases)) in
  let recommendations :=
    [ "Добавить интеграционные тесты для API endpoints";
      "Реализовать тесты производительности для операций с БД";
      "Добавить тесты безопасности для аутентификации";
      "Создать end-to-end тесты для критических пользовательских сценариев";
      "Настроить автоматический расчет покрытия кода";
      "Добавить тесты для обработки ошибок сети и БД";
      "Реализовать property-based тестирование для валидаторов" ] in
  [ nl +:+ "4. РЕАЛИЗОВАННЫЕ И РЕКОМЕНДУЕМЫЕ ТЕСТЫ";
    str_repeat "-" 50;
    nl +:+ "✅ РЕАЛИЗОВАННЫЕ ТЕСТЫ (" +:+ pretty (length implemented) +:+ "):" ]
  ++ concat (map (λ '(test_name, details), print_implemented test_name details) implemented)
  ++ [ nl +:+ "🔄 РЕКОМЕНДУЕМЫЕ ТЕСТЫ (" +:+ pretty (length recommended) +:+ "):" ]
  ++ map (λ '(test_name, details), "  - " +:+ test_name +:+ " (" +:+ case_type details +:+ ")")
       recommended
  ++ [ nl +:+ "5. ПРИМЕНЯЕМЫЕ ТЕХНИКИ ТЕСТИРОВАНИЯ";
       str_repeat "-" 50 ]
  ++ map (λ technique, "  ✓ " +:+ technique) techniques_used
  ++ [ nl +:+ "6. РЕКОМЕНДАЦИИ ПО УЛУЧШЕНИЮ ТЕСТИРОВАНИЯ";
       str_repeat "-" 50 ]
  ++ map (λ '(i, recommendation), "  " +:+ pretty i +:+ ". " +:+ recommendation)
       (enumerate_from_1 recommendations)
  ++ [ nl +:+ "7. ЗАКЛЮЧЕНИЕ";
       str_repeat "-" 50;
       "Проект имеет хорошую основу для тестирования с четкой архитектурой.";
       "Реализованы основные виды тестов: unit, integration, white-box, black-box.";
       "Применены современные техники: анализ цикломатической сложности,";
       "эквивалентные классы, граничные значения, тест-кейсы и чек-листы.";
       nl +:+ "Для полного покрытия рекомендуется расширить тестирование API";
       "и добавить системные тесты.";
       nl +:+ str_repeat "=" 100 ].

Definition print_comprehensive_report (tree : file_tree) : option (list string) :=
  components ← analyze_project_structure tree;
  items ← mapM (λ k, files ← components !! k; Some (k, files)) component_keys;
  strategy ← generate_testing_strategy tree;
  metrics ← calculate_testing_metrics tree;
  Some
    ([ str_repeat "=" 100;
       "КОМПЛЕКСНЫЙ ОТЧЕТ ПО ТЕСТИРОВАНИЮ ПРОЕКТА RUTOK-USERS";
       str_repeat "=" 100;
       nl +:+ "1. АНАЛИЗ СТРУКТУРЫ ПРОЕКТА";
       str_repeat "-" 50 ]
     ++ concat (map (λ '(component, files), print_component component files) items)
     ++ [ nl +:+ "2. СТРАТЕГИЯ ТЕСТИРОВАНИЯ ПО КОМПОНЕНТАМ";
          str_repeat "-" 50 ]
     ++ concat (map (λ '(component, details), print_strategy component details) strategy)
     ++ [ nl +:+ "3. МЕТРИКИ ТЕСТИРОВАНИЯ";
          str_repeat "-" 50 ]
     ++ print_metrics metrics
     ++ print_tests_and_advice).

End Summary.

(* ================================================================== *)
(** * The tests of [tests/test_simple_validation.py] *)
(* ================================================================== *)

Module ValidationTests.
Import Validation Summary.

(** Each test method is the conjunction of its assertions, run on the
    ASCII tables (every input of the file is ASCII); a test passes when it
    is [true].  [any(s in error for error in errors)] is [any_error]. *)
Definition any_error (s : string) (r : result) : bool :=
  existsb (contains s) (errors r).

Definition test_valid_usernames_ec1 : bool :=
  forallb (λ username,
             let result := validate_ascii username in
             valid result && (length (errors result) =? 0))
    ["user123"; "TestUser"; "abc123def"; "User1"; "test2user"; "MyUsername123"].

Definition test_empty_usernames_ec2 : bool :=
  forallb (λ username,
             let result := validate_ascii username in
             negb (valid result) && any_error "пустым" result)
    [""; "   "; "  "].

Definition test_numeric_only_usernames_ec3 : bool :=
  forallb (λ username,
             let result := validate_ascii username in
             negb (valid result) && any_error "только из цифр" result)
    ["123"; "999"; "12345678"].

Definition test_special_characters_ec4 : bool :=
  forallb (λ username,
             let result := validate_ascii username in
             negb (valid result) && any_error "буквы и цифры" result)
    ["user@123"; "test_user"; "user-name"; "user.name"; "user#123"; "user$name";
     "user name"].

Definition test_boundary_values : bool :=
  valid (validate_ascii "ab") &&
  (negb (valid (validate_ascii "a")) && any_error "минимум 2 символа" (validate_ascii "a")) &&
  valid (validate_ascii (str_repeat "a" 30)) &&
  (negb (valid (validate_ascii (str_repeat "a" 31))) &&
   any_error "30 символов" (validate_ascii (str_repeat "a" 31))) &&
  (negb (valid (validate_ascii "1")) && (1 <=? length (errors (validate_ascii "1")))).

Definition test_edge_cases : bool :=
  valid (validate_ascii "1abc") && valid (validate_ascii "abc1") &&
  valid (validate_ascii "abc").

(** [all_passed] of [test_summary_table] (lines 145-187). *)
Definition test_summary_table : bool :=
  forallb (λ '(input_data, expected_valid),
             Bool.eqb expected_valid (valid (validate_ascii input_data)))
    [ ("user123", true); ("TestUser", true); ("", false); ("123", false);
      ("user@123", false); ("test_user", false); ("ab", true); ("a", false);
      (str_repeat "a" 30, true); (str_repeat "a" 31, false) ].

(** [TestWhiteBoxSimple.test_all_paths_coverage] (lines 193-234);
    [errors[0]] of an empty list would raise, which fails the test. *)
Definition test_all_paths_coverage : bool :=
  (negb (valid (validate_ascii "")) &&
   match errors (validate_ascii "") with
   | first :: _ => contains "пустым" first
   | [] => false
   end) &&
  (negb (valid (validate_ascii "a")) && any_error "минимум 2" (validate_ascii "a")) &&
  (negb (valid (validate_ascii (str_repeat "a" 31))) &&
   any_error "30 символов" (validate_ascii (str_repeat "a" 31))) &&
  (negb (valid (validate_ascii "123")) && any_error "только из цифр" (validate_ascii "123")) &&
  (negb (valid (validate_ascii "user@123")) &&
   any_error "буквы и цифры" (validate_ascii "user@123")) &&
  (valid (validate_ascii "user123") && (length (errors (validate_ascii "user123")) =? 0)).

End ValidationTests.

(* ================================================================== *)
(** * The two scripts as programs over the scanned tree *)
(* ================================================================== *)

Module Scripts.

Inductive script := final_testing_summary | flow_graph_visualization.

(** What the two scripts see of the file system.  Both name the same
    directory, c:/Users/roman/Downloads/rutok-users-develop:
    [final_testing_summary.py] walks it, [flow_graph_visualization.py]
    saves its two images into it.  The state is whether that directory
    exists and, when it does, the paths of its .py files in the order
    [rglob] yields them. *)
Record file_system := {
  root_exists : bool;
  py_files : Summary.file_tree
}.

Definition project_root : string := "c:/Users/roman/Downloads/rutok-users-develop".

(** [project_root.rglob("*.py")], made relative: a directory that does not
    exist yields no path, and no exception. *)
Definition rglob_py (fs : file_system) : Summary.file_tree :=
  if root_exists fs then py_files fs else [].

Inductive drawing :=
| FlowFigure (fig : FlowGraph.figure)
| ComplexityFigure (charts : list (string * Z) * list (string * Z)).

(** [FileNotFoundError] is what [savefig] raises when the directory of its
    target is missing; [ReportError] stands for the [KeyError] or
    [ZeroDivisionError] of a report that does not return. *)
Inductive exception :=
| FileNotFoundError (path : string)
| ReportError.

(** What a run leaves behind: the calls of [print] in order, the images
    written, and the exception that ended the run, if one did. *)
Record outcome := {
  printed : list string;
  saved : list (string * drawing);
  raised : option exception
}.

Definition started : outcome := {| printed := []; saved := []; raised := None |}.

(** A statement of a [__main__] block acts on the outcome so far, and is
    skipped once an exception is raised. *)
Definition statement := outcome → outcome.

Definition unless_raised (act : outcome → outcome) : statement :=
  λ o, match raised o with Some _ => o | None => act o end.

Definition print (line : string) : statement :=
  unless_raised (λ o,
    {| printed := append (printed o) line; saved := saved o; raised := None |}).

(** [fig.savefig(project_root + "/" + name, ...)]: the image is written
    when the directory exists and [FileNotFoundError] is raised when it
    does not. *)
Definition savefig (fs : file_system) (fig : drawing) (name : string) : statement :=
  unless_raised (λ o,
    if root_exists fs then
      {| printed := printed o;
         saved := append (saved o) (project_root +:+ "/" +:+ name, fig);
         raised := None |}
    else
      {| printed := printed o; saved := saved o;
         raised := Some (FileNotFoundError (project_root +:+ "/" +:+ name)) |}).

Definition execute (statements : list statement) : outcome :=
  foldl (λ o stmt, stmt o) started statements.

(** [flow_graph_visualization.py], lines 186-202: both images are saved
    before anything is printed; no statement reads the directory. *)
Definition flow_graph_visualization_main (fs : file_system) : outcome :=
  execute
    [ savefig fs (FlowFigure FlowGraph.create_flow_graph) "flow_graph.png";
      savefig fs (ComplexityFigure FlowGraph.create_complexity_analysis)
        "complexity_analysis.png";
      print "✅ Графы созданы и сохранены:";
      print "   - flow_graph.png: Граф потока управления";
      print "   - complexity_analysis.png: Анализ цикломатической сложности" ].

(** [final_testing_summary.py], lines 287-288. *)
Definition final_testing_summary_main (fs : file_system) : outcome :=
  match Summary.print_comprehensive_report (rglob_py fs) with
  | Some lines => {| printed := lines; saved := []; raised := None |}
  | None => {| printed := []; saved := []; raised := Some ReportError |}
  end.

Definition run (s : script) (fs : file_system) : outcome :=
  match s with
  | final_testing_summary => final_testing_summary_main fs
  | flow_graph_visualization => flow_graph_visualization_main fs
  end.

(** A script scans the tree when the files of the tree show in what it
    produces: two trees that exist and hold different files can give
    different outcomes. *)
Definition depends_on_files (s : script) : Prop :=
  ∃ fs1 fs2 : file_system,
    root_exists fs1 = true ∧ root_exists fs2 = true ∧ run s fs1 ≠ run s fs2.

End Scripts.

Import FlowGraph.
Import Validation.
Import Summary.
Import Scripts.
Import ValidationTests.

(* ================================================================== *)
(** * The control-flow graph of [UserRepository.update()] *)
(* ================================================================== *)

(** Closed decidable goals, by evaluation. *)
Ltac by_decide := apply (bool_decide_unpack _); vm_compute; exact I.

(** [has_edge] decides membership in the edge list, labels dropped. *)
Lemma existsb_edge (es : list (nat * nat * string)) (a b : nat) :
  existsb (λ e, bool_decide (e.1.1 = a) && bool_decide (e.1.2 = b)) es = true
  ↔ (a, b) ∈ es.*1.
Proof.
  induction es as [|[[x y] l] es IH]; simpl.
  - rewrite elem_of_nil. split; [discriminate | tauto].
  - rewrite orb_true_iff, andb_true_iff, !bool_decide_eq_true, IH, elem_of_cons.
    split; intros [Hhere|Hrest]; try tauto.
    + left. destruct Hhere. congruence.
    + left. inversion Hhere. tauto.
Qed.

Lemma has_edge_spec (a b : nat) : has_edge a b = true ↔ (a, b) ∈ edges.*1.
Proof. apply existsb_edge. Qed.

Lemma has_edge_successor (a b : nat) : has_edge a b = true → b ∈ successors a.
Proof.
  unfold has_edge, successors. generalize edges as es.
  induction es as [|[[x y] l] es IH]; simpl; [discriminate|].
  rewrite orb_true_iff, andb_true_iff, !bool_decide_eq_true.
  intros [[-> ->]|Hrest].
  - rewrite bool_decide_true by done. simpl. left.
  - case_bool_decide; simpl; [right|]; auto.
Qed.

(** Elimination of an edge into the fifteen cases of the list. *)
Ltac edge_cases H :=
  apply has_edge_spec in H; cbn in H;
  repeat (apply elem_of_cons in H as [H|H]; [inversion H; clear H; subst|]);
  try (apply elem_of_nil in H; destruct H).

Lemma into_14 (x : nat) : has_edge x 14 = true → x = 13.
Proof. intros H. edge_cases H; reflexivity. Qed.

Lemma into_13 (x : nat) : has_edge x 13 = true → x = 12.
Proof. intros H. edge_cases H; reflexivity. Qed.

Lemma into_12 (x : nat) : has_edge x 12 = true → x = 11.
Proof. intros H. edge_cases H; reflexivity. Qed.

(** Walks split at any point. *)
Lemma is_walk_cons (a b : nat) (r : list nat) :
  is_walk (a :: b :: r) = has_edge a b && is_walk (b :: r).
Proof. reflexivity. Qed.

Lemma is_walk_app_r (l1 l2 : list nat) :
  is_walk (l1 ++ l2) = true → is_walk l2 = true.
Proof.
  induction l1 as [|a [|b l1] IH]; simpl; auto.
  - destruct l2; [reflexivity|]. intros H. apply andb_true_iff in H. tauto.
  - intros H. apply andb_true_iff in H. apply IH, H.
Qed.

Lemma is_walk_app_l (l1 l2 : list nat) :
  is_walk (l1 ++ l2) = true → is_walk l1 = true.
Proof.
  induction l1 as [|a [|b l1] IH]; simpl; auto.
  intros H. apply andb_true_iff in H as [-> H]. apply IH, H.
Qed.

Lemma is_walk_snoc (l : list nat) (a b : nat) :
  is_walk (l ++ [a; b]) = true → has_edge a b = true ∧ is_walk (l ++ [a]) = true.
Proof.
  intros H. split.
  - apply is_walk_app_r in H. simpl in H. apply andb_true_iff in H. tauto.
  - apply (is_walk_app_l _ [b]). rewrite <- app_assoc. exact H.
Qed.

(** A node without outgoing edges can only be the last node of a walk. *)
Lemma walk_stops_at_terminal (l1 l2 : list nat) (n : nat) :
  is_walk (l1 ++ n :: l2) = true → successors n = [] → l2 = [].
Proof.
  intros H Hn. apply is_walk_app_r in H. destruct l2 as [|b l2]; [reflexivity|].
  simpl in H. apply andb_true_iff in H as [H _].
  apply has_edge_successor in H. rewrite Hn in H. inversion H.
Qed.

(** A set of nodes closed under the edges holds every walk that enters it. *)
Lemma walk_stays (S : nat → Prop) (a : nat) (p : list nat) :
  (∀ x y, S x → has_edge x y = true → S y) →
  S a → is_walk (a :: p) = true → Forall S p.
Proof.
  intros Hclosed. revert a. induction p as [|b p IH]; intros a Ha H.
  - constructor.
  - simpl in H. apply andb_true_iff in H as [Hab H].
    constructor; eauto.
Qed.

(** Every node of a walk is reachable from its first node. *)
Lemma walk_reaches (a : nat) (p : list nat) :
  is_walk (a :: p) = true →
  Forall (λ b, rtc (λ x y, has_edge x y = true) a b) (a :: p).
Proof.
  revert a. induction p as [|b p IH]; intros a H.
  - repeat constructor.
  - simpl in H. apply andb_true_iff in H as [Hab H].
    constructor; [constructor|].
    eapply Forall_impl; [apply IH, H|].
    intros c Hc. simpl in Hc. eapply rtc_l; eauto.
Qed.

(** Every edge joins two keys of [nodes]: the lookups [nodes[start]] and
    [nodes[end]] of the drawing loop never raise. *)
Lemma edges_join_nodes :
  Forall (λ e, is_Some (nodes_dict !! e.1.1) ∧ is_Some (nodes_dict !! e.1.2)) edges.
Proof. by_decide. Qed.

(** The graph is connected: every node is reachable from the entry node. *)
Lemma all_reachable_from_entry :
  Forall (λ n, rtc (λ x y, has_edge x y = true) entry n) node_ids.
Proof.
  pose proof (walk_reaches 1 [2; 3] eq_refl) as W1.
  pose proof (walk_reaches 1 [2; 4; 5; 9; 10] eq_refl) as W2.
  pose proof (walk_reaches 1 [2; 4; 5; 9; 11; 12; 13; 14] eq_refl) as W3.
  pose proof (walk_reaches 1 [2; 4; 5; 6; 7; 8] eq_refl) as W4.
  rewrite Forall_forall in W1, W2, W3, W4.
  apply Forall_forall. intros n Hn. unfold entry. cbn in Hn.
  repeat (apply elem_of_cons in Hn as [->|Hn];
          [first [ apply W3; by_decide | apply W4; by_decide
                 | apply W1; by_decide | apply W2; by_decide ]|]).
  apply elem_of_nil in Hn. destruct Hn.
Qed.

(** C1 (as the code has it): on the graph of [create_flow_graph], with 14
    nodes, 15 edges, one connected component (every node is reachable from
    node 1) and 4 predicate nodes, the formula M = E - N + 2P gives 3, the
    figure that [complexity_text] itself prints, while the predicate count
    plus one gives 5: the two counts do not agree on this graph. *)
Theorem C1_formula_gives_3_predicates_give_5 :
  graph_N = 14%Z ∧ graph_E = 15%Z ∧ graph_P = 1%Z ∧
  Forall (λ n, rtc (λ x y, has_edge x y = true) entry n) node_ids ∧
  length predicate_nodes = 4 ∧
  cyclomatic graph_E graph_N graph_P = 3%Z ∧
  (Z.of_nat (length predicate_nodes) + 1 = 5)%Z ∧
  doc_M_formula complexity_text = cyclomatic graph_E graph_N graph_P ∧
  doc_M_predicates complexity_text = (Z.of_nat (length predicate_nodes) + 1)%Z.
Proof.
  split; [reflexivity|]. split; [reflexivity|]. split; [reflexivity|].
  split; [exact all_reachable_from_entry|].
  vm_compute. repeat split; reflexivity.
Qed.

(** C1, refuted as stated: the formula does not give 5 on this graph, so it
    does not agree with the predicate count plus one. *)
Lemma C1_formula_is_not_5 :
  ¬ (cyclomatic graph_E graph_N graph_P = 5%Z ∧
     cyclomatic graph_E graph_N graph_P = (Z.of_nat (length predicate_nodes) + 1)%Z).
Proof. vm_compute. intros [H _]. discriminate H. Qed.

(** The two counts meet at 5 once the three terminal nodes 3, 8 and 14 are
    joined to a single exit node: three more edges and one more node. *)
Lemma single_exit_formula_gives_5 :
  List.filter is_terminal node_ids = [3; 8; 14] ∧
  cyclomatic (graph_E + 3) (graph_N + 1) graph_P = 5%Z.
Proof. vm_compute. split; reflexivity. Qed.

(** A walk is a path whose consecutive pairs are all edges. *)
Lemma is_walk_pairs (p : list nat) :
  is_walk p = forallb (λ '(a, b), has_edge a b) (consecutive_pairs p).
Proof.
  induction p as [|a [|b p] IH]; try reflexivity.
  change (has_edge a b && is_walk (b :: p) =
          has_edge a b && forallb (λ '(a, b), has_edge a b) (consecutive_pairs (b :: p))).
  rewrite IH. reflexivity.
Qed.

(** The docstring of [test_path_2_update_without_email] (test_white_box.py,
    line 58) writes path 2 without node 9; that list is no walk either, the
    text box of the diagram has the walk. *)
Lemma test_docstring_path_2_skips_the_loop_node :
  is_walk [1; 2; 4; 5; 11; 12; 13; 14] = false ∧
  has_edge 5 11 = false ∧
  is_walk path_2 = true.
Proof. vm_compute. repeat split; reflexivity. Qed.

(** C2 (the code at the failing input): the documented path 4 steps from
    node 10 to node 11, which is no edge of [edges] (the only edge leaving
    10 goes back to 9), so path 4 is not a walk; paths 1, 2, 3 and 5 are
    walks from node 1 to a node without outgoing edges, and so is path 4
    once it returns through node 9. *)
Theorem C2_path_4_is_not_a_walk :
  doc_paths complexity_text = [path_1; path_2; path_3; path_4; path_5] ∧
  (10, 11) ∈ consecutive_pairs path_4 ∧
  has_edge 10 11 = false ∧
  successors 10 = [9] ∧
  is_walk path_4 = false ∧
  map complete_path [path_1; path_2; path_3; path_5] = [true; true; true; true] ∧
  map last [path_1; path_2; path_3; path_5] = [Some 3; Some 14; Some 8; Some 14] ∧
  complete_path [1; 2; 4; 5; 6; 7; 9; 10; 9; 11; 12; 13; 14] = true.
Proof.
  repeat split; try (vm_compute; reflexivity).
  unfold path_4. simpl. set_solver.
Qed.

(** C5: a walk from the entry node 1 to the return node 14 ends with
    11, 12, 13, 14: it sets [updated_at], commits and refreshes, in that
    order, right before it returns. *)
Theorem C5_return_after_commit_and_refresh (p : list nat) :
  is_walk p = true → head p = Some 1 → last p = Some 14 →
  ∃ pre, p = pre ++ [11; 12; 13; 14].
Proof.
  intros Hw Hhd Hlast.
  apply last_Some in Hlast as [l1 ->].
  destruct l1 as [|x l1 _] using rev_ind; [discriminate|].
  rewrite <- app_assoc in Hw. simpl in Hw.
  apply is_walk_snoc in Hw as [He Hw]. apply into_14 in He as ->.
  destruct l1 as [|y l1 _] using rev_ind; [discriminate|].
  rewrite <- app_assoc in Hw. simpl in Hw.
  apply is_walk_snoc in Hw as [He Hw]. apply into_13 in He as ->.
  destruct l1 as [|z l1 _] using rev_ind; [discriminate|].
  rewrite <- app_assoc in Hw. simpl in Hw.
  apply is_walk_snoc in Hw as [He Hw]. apply into_12 in He as ->.
  exists l1. rewrite <- !app_assoc. reflexivity.
Qed.

Lemma C5_witness :
  is_walk path_2 = true ∧ head path_2 = Some 1 ∧ last path_2 = Some 14 ∧
  ∃ pre, path_2 = pre ++ [11; 12; 13; 14].
Proof.
  repeat split; try reflexivity.
  apply (C5_return_after_commit_and_refresh path_2); reflexivity.
Defined.

(** C6: the exception nodes 3 and 8 have no outgoing edges, and a walk that
    visits one of them never visits node 12 ([session.commit()]). *)
Theorem C6_no_commit_on_error_paths :
  out_degree 3 = 0 ∧ out_degree 8 = 0 ∧
  ∀ p : list nat, is_walk p = true → 3 ∈ p ∨ 8 ∈ p → 12 ∉ p.
Proof.
  split; [reflexivity|]. split; [reflexivity|].
  intros p Hw Hexc H12.
  assert (∃ n, n ∈ p ∧ successors n = [] ∧ n ≠ 12 ∧ n ≠ 13 ∧ n ≠ 14)
    as (n & Hn & Hterm & Hne).
  { destruct Hexc; [exists 3 | exists 8]; repeat split; auto. }
  apply list_elem_of_split in Hn as (l1 & l2 & ->).
  pose proof (walk_stops_at_terminal _ _ _ Hw Hterm) as ->.
  apply elem_of_app in H12 as [H12|H12];
    [|apply list_elem_of_singleton in H12; lia].
  apply list_elem_of_split in H12 as (m1 & m2 & ->).
  rewrite <- app_assoc in Hw. apply is_walk_app_r in Hw. simpl in Hw.
  apply (walk_stays (λ x, x = 12 ∨ x = 13 ∨ x = 14)) in Hw.
  - rewrite Forall_app, Forall_singleton in Hw. destruct Hw as [_ Hw]. lia.
  - intros x y Hx He. edge_cases He; lia.
  - auto.
Qed.

Lemma C6_witness :
  is_walk path_3 = true ∧ (3 ∈ path_3 ∨ 8 ∈ path_3) ∧ 12 ∉ path_3.
Proof.
  assert (8 ∈ path_3) as H8 by (unfold path_3; set_solver).
  split; [reflexivity|]. split; [right; exact H8|].
  apply (proj2 (proj2 C6_no_commit_on_error_paths) path_3);
    [reflexivity | right; exact H8].
Defined.

(** C7: the nodes drawn as predicate nodes are exactly 2, 5, 7 and 9, four
    of them: the null check, the lookup of 'email', the email-conflict check
    and the loop over the fields; they are the nodes with two outgoing edges.
    The nodes drawn as exception nodes are exactly 3 and 8, the two that
    raise. *)
Theorem C7_predicate_and_exception_nodes :
  predicate_nodes = [2; 5; 7; 9] ∧
  length predicate_nodes = 4 ∧
  exception_nodes = [3; 8] ∧
  List.filter (λ n, 2 <=? out_degree n)%nat node_ids = predicate_nodes ∧
  map out_degree predicate_nodes = [2; 2; 2; 2] ∧
  map (λ n, (nodes_dict !!! n).2) predicate_nodes =
    [ "2. if user is None";
      "5. if 'email' in " +:+ nl +:+ "update_data";
      "7. if existing_user and " +:+ nl +:+ "existing_user.id != id";
      "9. for key, value in " +:+ nl +:+ "update_data.items()" ] ∧
  map (λ n, (nodes_dict !!! n).2) exception_nodes =
    [ "3. raise HTTPException" +:+ nl +:+ "(404)";
      "8. raise HTTPException" +:+ nl +:+ "(400)" ] ∧
  map node_color node_ids =
    [ "#ccffcc"; "#ffffcc"; "#ffcccc"; "#ccffcc"; "#ffffcc"; "#ccffcc"; "#ffffcc";
      "#ffcccc"; "#ffffcc"; "#ccffcc"; "#ccffcc"; "#ccffcc"; "#ccffcc"; "#ccffcc" ].
Proof. vm_compute. repeat split; reflexivity. Qed.

(* ================================================================== *)
(** * [validate_username] *)
(* ================================================================== *)

Section validate_username_facts.
Context {char : Type} `{Unicode char}.

Lemma str_empty_nil (s : list char) : str_empty s = true ↔ s = [].
Proof. destruct s; simpl; split; congruence. Qed.

Lemma lstrip_nil (s : list char) : lstrip s = [] ↔ forallb isspace s = true.
Proof.
  induction s as [|c s IH]; simpl; [tauto|].
  destruct (isspace c); simpl; [exact IH|]. split; discriminate.
Qed.

(** What [lstrip] leaves starts with a character that is no whitespace. *)
Lemma lstrip_head (s : list char) :
  match lstrip s with [] => True | c :: _ => isspace c = false end.
Proof.
  induction s as [|c s IH]; simpl; [exact I|].
  destruct (isspace c) eqn:Hc; [exact IH | exact Hc].
Qed.

Lemma forallb_rev (f : char → bool) (s : list char) :
  forallb f (rev s) = forallb f s.
Proof.
  induction s as [|c s IH]; simpl; [reflexivity|].
  rewrite forallb_app, IH. simpl. rewrite andb_true_r. apply andb_comm.
Qed.

Lemma rstrip_nil (s : list char) : rstrip s = [] ↔ forallb isspace s = true.
Proof.
  unfold rstrip. rewrite <- (forallb_rev isspace s), <- lstrip_nil.
  split; [|intros ->; reflexivity].
  intros Hr. apply (f_equal (@rev char)) in Hr. rewrite rev_involutive in Hr. exact Hr.
Qed.

(** [username.strip() == ""] holds exactly for the strings of whitespace. *)
Lemma strip_nil (s : list char) : strip s = [] ↔ forallb isspace s = true.
Proof.
  unfold strip. rewrite rstrip_nil, <- (lstrip_nil s).
  pose proof (lstrip_head s) as Hh.
  destruct (lstrip s) as [|c r]; simpl; [tauto|].
  rewrite Hh. simpl. split; discriminate.
Qed.

(** C3: [validate_username u] is valid exactly when [u] is not empty after
    stripping whitespace, has between 2 and 30 characters, is not made of
    digits only ([u.isdigit()] is false) and is alphanumeric
    ([u.isalnum()]); and it is valid exactly when its list of errors is
    empty. *)
Theorem C3_validate_username_valid_iff (u : list char) :
  (valid (validate_username u) = true ↔
     strip u ≠ [] ∧ (2 ≤ length u ≤ 30)%nat ∧
     str_isdigit u = false ∧ str_isalnum u = true) ∧
  (valid (validate_username u) = true ↔ errors (validate_username u) = []).
Proof.
  unfold validate_username.
  destruct (str_empty u) eqn:Hu; simpl.
  { apply str_empty_nil in Hu as ->. simpl. split; split; try discriminate.
    intros [Hs _]. destruct Hs. reflexivity. }
  destruct (str_empty (strip u)) eqn:Hs; simpl.
  { apply str_empty_nil in Hs. split; split; try discriminate.
    intros [Hne _]. contradiction. }
  assert (strip u ≠ []) as Hne.
  { intros E. apply str_empty_nil in E. congruence. }
  destruct (Nat.ltb_spec (length u) 2) as [Hlo|Hlo];
    [|destruct (Nat.ltb_spec 30 (length u)) as [Hhi|Hhi]];
    destruct (str_isdigit u); destruct (str_isalnum u); simpl;
    (split; split; first [discriminate | intros; exfalso; intuition (congruence || lia)
                         | intros; intuition (congruence || lia) ]).
Qed.

End validate_username_facts.

(** The assertions of [TestUsernameValidationBlackBox], run on the ASCII
    tables. *)
Lemma tests_of_validate_username :
  map (λ s, valid (validate_ascii s))
    ["user123"; "TestUser"; "abc123def"; "User1"; "test2user"; "MyUsername123";
     "ab"; "1abc"; "abc1"; "abc"; "aaaaaaaaaaaaaaaaaaaaaaaaaaaaaa"]
    = repeat true 11 ∧
  map (λ s, errors (validate_ascii s)) [""; "   "; "  "] = repeat [E_empty] 3 ∧
  map (λ s, errors (validate_ascii s)) ["123"; "999"; "12345678"] = repeat [E_digits] 3 ∧
  map (λ s, errors (validate_ascii s))
    ["user@123"; "test_user"; "user-name"; "user.name"; "user#123"; "user$name"; "user name"]
    = repeat [E_alnum] 7 ∧
  errors (validate_ascii "a") = [E_short] ∧
  errors (validate_ascii "aaaaaaaaaaaaaaaaaaaaaaaaaaaaaaa") = [E_long] ∧
  errors (validate_ascii "1") = [E_short; E_digits].
Proof. vm_compute. repeat split; reflexivity. Qed.

(* ================================================================== *)
(** * The scan of the project tree *)
(* ================================================================== *)

(** The chain of [classify] is the table of [rules]. *)
Lemma classify_first_matching_rule (p : string) (components : gmap string (list string)) :
  classify p components =
  match first_matching_rule p with
  | Some key => append_to key p components
  | None => Some components
  end.
Proof.
  unfold classify, first_matching_rule, rules. simpl.
  repeat match goal with
         | |- context [if ?c then _ else _] => destruct c; simpl; try reflexivity
         end.
Qed.

Lemma first_matching_rule_key (p key : string) :
  first_matching_rule p = Some key → key ∈ component_keys.
Proof.
  unfold first_matching_rule. destruct (List.find _ rules) as [[f k]|] eqn:Hf; [|discriminate].
  intros [= <-]. apply find_some in Hf as [Hin _].
  assert (k ∈ rules.*2) as Hk.
  { apply list_elem_of_fmap. exists (f, k). split; [reflexivity|]. apply list_elem_of_In, Hin. }
  exact Hk.
Qed.

Lemma assigned_snoc (key : string) (done : list string) (p : string) :
  assigned key (done ++ [p]) =
  if bool_decide (first_matching_rule p = Some key) then assigned key done ++ [p]
  else assigned key done.
Proof.
  unfold assigned. rewrite List.filter_app. simpl.
  case_bool_decide; [reflexivity | apply app_nil_r].
Qed.

Lemma scanned_initial : scanned [] initial_components.
Proof.
  intros key. unfold initial_components, component_keys. simpl.
  repeat (rewrite lookup_insert; case_decide;
          [subst; vm_compute; reflexivity|]).
  rewrite lookup_empty. rewrite bool_decide_false; [reflexivity|].
  rewrite !elem_of_cons, elem_of_nil. intuition congruence.
Qed.

Lemma classify_scanned (done : list string) (p : string) (components : gmap string (list string)) :
  scanned done components →
  ∃ components', classify p components = Some components' ∧ scanned (done ++ [p]) components'.
Proof.
  intros Hinv. rewrite classify_first_matching_rule.
  destruct (first_matching_rule p) as [k|] eqn:Hr.
  - pose proof (first_matching_rule_key _ _ Hr) as Hk.
    unfold append_to. rewrite (Hinv k), bool_decide_true by exact Hk. simpl.
    eexists. split; [reflexivity|].
    intros key. rewrite lookup_insert, assigned_snoc, Hr.
    case_decide as Hkk.
    + subst key. rewrite !bool_decide_true by done. reflexivity.
    + rewrite (bool_decide_false (Some k = Some key)) by congruence. apply Hinv.
  - eexists. split; [reflexivity|].
    intros key. rewrite assigned_snoc, Hr.
    rewrite (bool_decide_false (None = Some key)) by congruence. apply Hinv.
Qed.

Lemma scan_scanned (files done : list string) (components : gmap string (list string)) :
  scanned done components →
  ∃ components', scan files components = Some components' ∧ scanned (done ++ files) components'.
Proof.
  revert done components. induction files as [|p files IH]; intros done components Hinv; simpl.
  - exists components. rewrite app_nil_r. auto.
  - destruct (classify_scanned done p components Hinv) as (c1 & -> & Hinv1). simpl.
    destruct (IH _ _ Hinv1) as (c2 & Hscan & Hinv2).
    exists c2. split; [exact Hscan|]. rewrite <- app_assoc in Hinv2. exact Hinv2.
Qed.

(** [analyze_project_structure] always returns, and returns the eight lists
    of the table. *)
Lemma analyze_project_structure_scanned (tree : file_tree) :
  ∃ components, analyze_project_structure tree = Some components ∧ scanned tree components.
Proof. apply (scan_scanned tree [] initial_components), scanned_initial. Qed.

Lemma scanned_lookup (tree : file_tree) (components : gmap string (list string)) (key : string) :
  scanned tree components → key ∈ component_keys →
  components !! key = Some (assigned key tree).
Proof. intros Hs Hk. rewrite (Hs key), bool_decide_true by exact Hk. reflexivity. Qed.

Lemma elem_of_assigned (key : string) (tree : file_tree) (p : string) :
  p ∈ assigned key tree ↔ p ∈ tree ∧ first_matching_rule p = Some key.
Proof.
  unfold assigned. rewrite !list_elem_of_In, filter_In, bool_decide_eq_true. reflexivity.
Qed.

(** [find] returns the first element that satisfies the test. *)
Lemma find_first {A : Type} (f : A → bool) (l : list A) (i : nat) (x : A) :
  l !! i = Some x → f x = true →
  ∃ m y, m ≤ i ∧ l !! m = Some y ∧ List.find f l = Some y.
Proof.
  revert i. induction l as [|a l IH]; intros i Hi Hx; [discriminate|].
  simpl. destruct (f a) eqn:Ha.
  - exists 0, a. split; [lia|]. split; reflexivity.
  - destruct i as [|i]; simpl in Hi; [congruence|].
    destruct (IH i Hi Hx) as (m & y & Hm & Hy & Hfind).
    exists (S m), y. split; [lia|]. split; assumption.
Qed.

Lemma rules_keys_NoDup : NoDup rules.*2.
Proof. by_decide. Qed.

(** A path that an earlier rule matches is selected by that rule or by one
    before it. *)
Lemma earlier_rule_wins (i : nat) (rule : (string → bool) * string) (p : string) :
  rules !! i = Some rule → rule.1 p = true →
  ∃ m key, m ≤ i ∧ rules.*2 !! m = Some key ∧ first_matching_rule p = Some key.
Proof.
  intros Hi Hp.
  destruct (find_first (λ rule, rule.1 p) rules i rule Hi Hp) as (m & y & Hm & Hy & Hf).
  exists m, y.2. split; [exact Hm|]. split.
  - rewrite list_lookup_fmap, Hy. reflexivity.
  - unfold first_matching_rule. rewrite Hf. reflexivity.
Qed.

(** C9: the scan returns the eight lists, and each holds exactly the
    scanned files that its rule is the first to match, in the fixed order
    models, repository, services, utils, api (or main.py), database/db,
    config, test.  So a file is in at most one list, the lists are pairwise
    disjoint, and a file that an earlier rule matches is in no list of a
    later rule. *)
Theorem C9_first_matching_rule_partitions (tree : file_tree) :
  ∃ components,
    analyze_project_structure tree = Some components ∧
    (∀ key, components !! key =
            if bool_decide (key ∈ component_keys) then Some (assigned key tree) else None) ∧
    (∀ key l p, components !! key = Some l →
                (p ∈ l ↔ p ∈ tree ∧ first_matching_rule p = Some key)) ∧
    (∀ k1 k2 l1 l2 p, components !! k1 = Some l1 → components !! k2 = Some l2 →
                      p ∈ l1 → p ∈ l2 → k1 = k2) ∧
    (∀ i j earlier later l p,
       rules !! i = Some earlier → rules !! j = Some later → i < j →
       earlier.1 p = true → components !! later.2 = Some l → p ∉ l).
Proof.
  destruct (analyze_project_structure_scanned tree) as (components & Ha & Hs).
  exists components. split; [exact Ha|]. split; [exact Hs|].
  assert (∀ key l, components !! key = Some l → l = assigned key tree) as Hl.
  { intros key l Hk. rewrite (Hs key) in Hk. case_bool_decide; congruence. }
  split; [|split].
  - intros key l p Hk. rewrite (Hl _ _ Hk). apply elem_of_assigned.
  - intros k1 k2 l1 l2 p H1 H2 Hp1 Hp2.
    rewrite (Hl _ _ H1) in Hp1. rewrite (Hl _ _ H2) in Hp2.
    apply elem_of_assigned in Hp1 as [_ Hp1]. apply elem_of_assigned in Hp2 as [_ Hp2].
    congruence.
  - intros i j earlier later l p Hi Hj Hij Hp Hk Hin.
    rewrite (Hl _ _ Hk) in Hin. apply elem_of_assigned in Hin as [_ Hin].
    destruct (earlier_rule_wins i earlier p Hi Hp) as (m & key & Hm & Hkey & Hfirst).
    assert (key = later.2) as -> by congruence.
    assert (rules.*2 !! j = Some later.2) as Hj2.
    { rewrite list_lookup_fmap, Hj. reflexivity. }
    pose proof (NoDup_lookup _ _ _ _ rules_keys_NoDup Hkey Hj2). lia.
Qed.

(** The example of the claim: a test file inside a [models] directory. *)
Lemma test_file_under_models :
  ∃ components,
    analyze_project_structure
      ["app/models/test_user.py"; "tests/test_api.py"; "tests/test_login.py"; "setup.py"]
      = Some components ∧
    components !! "models" = Some ["app/models/test_user.py"] ∧
    components !! "api" = Some ["tests/test_api.py"] ∧
    components !! "tests" = Some ["tests/test_login.py"] ∧
    components !! "config" = Some [].
Proof.
  destruct (analyze_project_structure_scanned
              ["app/models/test_user.py"; "tests/test_api.py"; "tests/test_login.py"; "setup.py"])
    as (components & Ha & Hs).
  exists components. split; [exact Ha|].
  rewrite !(scanned_lookup _ _ _ Hs) by by_decide.
  repeat split; vm_compute; reflexivity.
Qed.

(* ================================================================== *)
(** * The metrics and the report *)
(* ================================================================== *)

(** [calculate_testing_metrics] always returns; its counts are sums of the
    lengths of six lists of the scan, and its coverage figures are the
    literals of the function. *)
Lemma calculate_testing_metrics_value (tree : file_tree) :
  calculate_testing_metrics tree =
  Some {| total_files :=
            length (assigned "models" tree) + length (assigned "repositories" tree) +
            length (assigned "services" tree) + length (assigned "utils" tree) +
            length (assigned "api" tree) + length (assigned "database" tree);
          high_priority_files :=
            length (assigned "models" tree) + length (assigned "repositories" tree) +
            length (assigned "services" tree) + length (assigned "api" tree);
          estimated_coverage :=
            [ ("models", 85); ("repositories", 75); ("services", 70);
              ("utils", 90); ("api", 60); ("database", 50) ]%Z;
          average_coverage := PrimFloat.div (float_of_int 430) (float_of_int 6) |}.
Proof.
  unfold calculate_testing_metrics, generate_testing_strategy.
  destruct (analyze_project_structure_scanned tree) as (components & -> & Hs).
  assert (∀ key, bool_decide (key ∈ component_keys) = true →
                 components !! key = Some (assigned key tree)) as Hk.
  { intros key Hkey. apply scanned_lookup; [exact Hs | exact (bool_decide_eq_true_1 _ Hkey)]. }
  simpl. rewrite !Hk by reflexivity. reflexivity.
Qed.

(** The report is always printed: no lookup of the scan raises. *)
Lemma print_comprehensive_report_returns (tree : file_tree) :
  is_Some (print_comprehensive_report tree).
Proof.
  unfold print_comprehensive_report.
  rewrite calculate_testing_metrics_value.
  unfold generate_testing_strategy.
  destruct (analyze_project_structure_scanned tree) as (components & -> & Hs).
  assert (∀ key, bool_decide (key ∈ component_keys) = true →
                 components !! key = Some (assigned key tree)) as Hk.
  { intros key Hkey. apply scanned_lookup; [exact Hs | exact (bool_decide_eq_true_1 _ Hkey)]. }
  simpl. rewrite !Hk by reflexivity. simpl. eexists. reflexivity.
Qed.

(** C10: the metrics count [high_priority_files ≤ total_files]; the total
    is the sum of the lengths of the six lists of the strategy (models,
    repositories, services, utils, api, database: the lists [config] and
    [tests] of the scan are not in it), and the high-priority count is the
    sum over the four components whose priority is "HIGH". *)
Theorem C10_high_priority_at_most_total (tree : file_tree) :
  ∃ components strategy m,
    analyze_project_structure tree = Some components ∧
    generate_testing_strategy tree = Some strategy ∧
    calculate_testing_metrics tree = Some m ∧
    map (λ '(key, details), (key, priority details, files details)) strategy =
      [ ("models", "HIGH", components !!! "models");
        ("repositories", "HIGH", components !!! "repositories");
        ("services", "HIGH", components !!! "services");
        ("utils", "MEDIUM", components !!! "utils");
        ("api", "HIGH", components !!! "api");
        ("database", "MEDIUM", components !!! "database") ] ∧
    total_files m =
      sum_nat (map (λ key, length (components !!! key))
                 ["models"; "repositories"; "services"; "utils"; "api"; "database"]) ∧
    high_priority_files m =
      sum_nat (map (λ key, length (components !!! key))
                 ["models"; "repositories"; "services"; "api"]) ∧
    high_priority_files m ≤ total_files m.
Proof.
  pose proof (calculate_testing_metrics_value tree) as Hm.
  unfold generate_testing_strategy.
  destruct (analyze_project_structure_scanned tree) as (components & Ha & Hs).
  assert (∀ key, bool_decide (key ∈ component_keys) = true →
                 components !! key = Some (assigned key tree)) as Hk.
  { intros key Hkey. apply scanned_lookup; [exact Hs | exact (bool_decide_eq_true_1 _ Hkey)]. }
  rewrite Ha. simpl. rewrite !Hk by reflexivity. simpl.
  exists components. eexists. eexists.
  split; [reflexivity|]. split; [reflexivity|]. split; [exact Hm|].
  unfold lookup_total, map_lookup_total. rewrite !Hk by reflexivity. simpl.
  split; [reflexivity|]. split; [reflexivity|]. split; [reflexivity|]. lia.
Qed.

(** Files of [config] and [tests] are scanned and not counted. *)
Lemma config_and_tests_are_not_counted :
  ∃ components m,
    analyze_project_structure ["app/config.py"; "tests/test_x.py"; "app/models/user.py"]
      = Some components ∧
    components !! "config" = Some ["app/config.py"] ∧
    components !! "tests" = Some ["tests/test_x.py"] ∧
    calculate_testing_metrics ["app/config.py"; "tests/test_x.py"; "app/models/user.py"]
      = Some m ∧
    total_files m = 1 ∧ high_priority_files m = 1.
Proof.
  destruct (analyze_project_structure_scanned
              ["app/config.py"; "tests/test_x.py"; "app/models/user.py"])
    as (components & Ha & Hs).
  exists components. eexists. split; [exact Ha|].
  rewrite !(scanned_lookup _ _ _ Hs) by by_decide.
  split; [vm_compute; reflexivity|]. split; [vm_compute; reflexivity|].
  split; [apply calculate_testing_metrics_value|].
  split; vm_compute; reflexivity.
Qed.

(** C8 (as the code has it): for every tree the metrics carry the same
    coverage figures, models 85, repositories 75, services 70, utils 90,
    api 60, database 50, whose sum is 430, and the same average: the
    binary64 quotient of 430 by 6.  That number is 5043093332732587 / 2^46
    (71.66666666666667), the double nearest to the mean 430/6 and above it
    by 1 / (3 * 2^46); the report prints it as 71.7%. *)
Theorem C8_coverage_figures_are_constant (tree : file_tree) :
  ∃ m,
    calculate_testing_metrics tree = Some m ∧
    estimated_coverage m =
      [ ("models", 85); ("repositories", 75); ("services", 70);
        ("utils", 90); ("api", 60); ("database", 50) ]%Z ∧
    sum_Z (estimated_coverage m).*2 = 430%Z ∧
    length (estimated_coverage m) = 6 ∧
    truediv 430 6 = Some (average_coverage m) ∧
    exact_value (average_coverage m) = Some (5043093332732587, 2 ^ 46)%Z ∧
    (6 * 5043093332732587 - 430 * 2 ^ 46 = 2)%Z ∧
    drop 2 (print_metrics m) =
      [ "Средний ожидаемый охват: 71.7%";
        nl +:+ "Ожидаемое покрытие по компонентам:";
        "  models: 85%"; "  repositories: 75%"; "  services: 70%";
        "  utils: 90%"; "  api: 60%"; "  database: 50%" ].
Proof.
  eexists. split; [apply calculate_testing_metrics_value|].
  simpl. repeat split; vm_compute; reflexivity.
Qed.

(** C8, refuted as stated: already for the empty tree, the average that
    the metrics carry is a binary64 number [n / d] with [6 n ≠ 430 d]; it is
    not the exact mean 430/6. *)
Lemma C8_average_is_not_the_exact_mean :
  ¬ ∃ m n d,
      calculate_testing_metrics [] = Some m ∧
      exact_value (average_coverage m) = Some (n, d) ∧
      (6 * n = 430 * d)%Z.
Proof.
  intros (m & n & d & Hm & Hv & Heq).
  rewrite calculate_testing_metrics_value in Hm. injection Hm as <-.
  vm_compute in Hv. injection Hv as <- <-. vm_compute in Heq. discriminate Heq.
Qed.

(* ================================================================== *)
(** * The two scripts and the tree *)
(* ================================================================== *)

(** The outcome of [final_testing_summary.py] is the report of the scan. *)
Lemma final_testing_summary_main_prints_the_report (fs : file_system) :
  ∃ lines,
    print_comprehensive_report (rglob_py fs) = Some lines ∧
    final_testing_summary_main fs = {| printed := lines; saved := []; raised := None |}.
Proof.
  unfold final_testing_summary_main.
  destruct (print_comprehensive_report_returns (rglob_py fs)) as [lines ->].
  exists lines. split; reflexivity.
Qed.

(** C4 (as the code has it): only [final_testing_summary.py] scans the
    tree.  Its outcome is the report of the scanned files, two existing
    trees with different files can give different reports, and a missing
    root is scanned as an empty tree.  [flow_graph_visualization.py] reads
    no file: for every tree that exists it saves the same two images and
    prints the same three lines, whatever the files; the directory matters
    to it only because it writes there, and when the directory is missing
    the first [savefig] raises before anything is printed or saved. *)
Theorem C4_only_the_summary_scans_the_tree :
  depends_on_files final_testing_summary ∧
  (∀ fs, ∃ lines,
     print_comprehensive_report (rglob_py fs) = Some lines ∧
     run final_testing_summary fs = {| printed := lines; saved := []; raised := None |}) ∧
  (∀ fs, run final_testing_summary fs =
         run final_testing_summary {| root_exists := true; py_files := rglob_py fs |}) ∧
  (∀ fs, root_exists fs = true →
         run flow_graph_visualization fs =
         {| printed :=
              [ "✅ Графы созданы и сохранены:";
                "   - flow_graph.png: Граф потока управления";
                "   - complexity_analysis.png: Анализ цикломатической сложности" ];
            saved :=
              [ (project_root +:+ "/flow_graph.png", FlowFigure create_flow_graph);
                (project_root +:+ "/complexity_analysis.png",
                 ComplexityFigure create_complexity_analysis) ];
            raised := None |}) ∧
  (∀ fs, root_exists fs = false →
         run flow_graph_visualization fs =
         {| printed := []; saved := [];
            raised := Some (FileNotFoundError (project_root +:+ "/flow_graph.png")) |}) ∧
  (∀ fs1 fs2, root_exists fs1 = root_exists fs2 →
              run flow_graph_visualization fs1 = run flow_graph_visualization fs2).
Proof.
  split_and!.
  - exists {| root_exists := true; py_files := [] |},
           {| root_exists := true; py_files := ["main.py"] |}.
    split; [reflexivity|]. split; [reflexivity|].
    intros Heq. apply (f_equal (λ o, length (printed o))) in Heq.
    vm_compute in Heq. discriminate Heq.
  - exact final_testing_summary_main_prints_the_report.
  - intros [exists_ files]. reflexivity.
  - intros [exists_ files] Hroot. simpl in Hroot. subst exists_. reflexivity.
  - intros [exists_ files] Hroot. simpl in Hroot. subst exists_. reflexivity.
  - intros [e1 f1] [e2 f2] Hroot. simpl in Hroot. subst e2.
    destruct e1; reflexivity.
Qed.

(** C4, refuted as stated: not both scripts scan the tree.  No two trees
    that exist tell the runs of [flow_graph_visualization.py] apart,
    whatever files they hold. *)
Lemma C4_flow_graph_script_ignores_the_tree :
  ¬ (∀ s : script, depends_on_files s).
Proof.
  intros Hall.
  destruct (Hall flow_graph_visualization) as ([e1 f1] & [e2 f2] & H1 & H2 & Hne).
  simpl in H1, H2. subst e1 e2. apply Hne. reflexivity.
Qed.

(* ================================================================== *)
(** * Further properties of [validate_username] *)
(* ================================================================== *)

(** A closed decidable hypothesis that evaluates to false. *)
Ltac refute_by_decide H := apply (bool_decide_pack _) in H; vm_compute in H; exact H.

Section validate_username_errors.
Context {char : Type} `{Unicode char}.

Lemma str_empty_strip (u : list char) :
  (str_empty u || str_empty (strip u) = true) ↔ strip u = [].
Proof.
  rewrite orb_true_iff, !str_empty_nil. split; [|tauto].
  intros [->|Hs]; [reflexivity | exact Hs].
Qed.

(** X1: every message of [validate_username] is reported exactly when its
    rule is broken: the empty message for a blank name, and for the other
    names the length messages below 2 and above 30 characters, the digits
    message when [isdigit()] holds and the alphanumeric message when
    [isalnum()] fails; there is no other message. *)
Theorem X1_each_error_has_its_rule (u : list char) :
  (E_empty ∈ errors (validate_username u) ↔ strip u = []) ∧
  (E_short ∈ errors (validate_username u) ↔ strip u ≠ [] ∧ length u < 2) ∧
  (E_long ∈ errors (validate_username u) ↔ strip u ≠ [] ∧ 30 < length u) ∧
  (E_digits ∈ errors (validate_username u) ↔ strip u ≠ [] ∧ str_isdigit u = true) ∧
  (E_alnum ∈ errors (validate_username u) ↔ strip u ≠ [] ∧ str_isalnum u = false) ∧
  (∀ e, e ∈ errors (validate_username u) → e ∈ [E_empty; E_short; E_long; E_digits; E_alnum]).
Proof.
  pose proof (str_empty_strip u) as Hblank.
  unfold validate_username.
  destruct (str_empty u || str_empty (strip u)).
  - assert (strip u = []) as Hs by (apply Hblank; reflexivity).
    unfold append. simpl.
    split_and!;
      [ split; [intros _; exact Hs | intros _; by_decide]
      | split; [intros Hm; exfalso; refute_by_decide Hm | intros [Hne _]; contradiction] ..
      | intros e He; apply list_elem_of_singleton in He as ->; by_decide ].
  - assert (strip u ≠ []) as Hs by (intros E; apply Hblank in E; discriminate).
    destruct (Nat.ltb_spec (length u) 2) as [Hlo|Hlo];
      [|destruct (Nat.ltb_spec 30 (length u)) as [Hhi|Hhi]];
      destruct (str_isdigit u); destruct (str_isalnum u); unfold append; simpl;
      (split_and!;
       [ split; [intros Hm; exfalso; refute_by_decide Hm | intros E; contradiction]
       | split; [intros Hm; first [exfalso; refute_by_decide Hm | split; [exact Hs | lia]]
                | intros [_ Hc]; first [by_decide | exfalso; lia]]
       | split; [intros Hm; first [exfalso; refute_by_decide Hm | split; [exact Hs | lia]]
                | intros [_ Hc]; first [by_decide | exfalso; lia]]
       | split; [intros Hm; first [exfalso; refute_by_decide Hm | split; [exact Hs | reflexivity]]
                | intros [_ Hc]; first [by_decide | discriminate Hc]]
       | split; [intros Hm; first [exfalso; refute_by_decide Hm | split; [exact Hs | reflexivity]]
                | intros [_ Hc]; first [by_decide | discriminate Hc]]
       | intros e He;
         repeat (apply elem_of_cons in He as [->|He]; [by_decide|]);
         apply elem_of_nil in He; destruct He ]).
Qed.

(** X2: a name is answered with the single empty-name message exactly when
    all its characters are whitespace (the empty name included); no other
    rule is looked at for it, whatever its length. *)
Theorem X2_blank_names_get_only_the_empty_error (u : list char) :
  forallb isspace u = true ↔
  validate_username u = {| valid := false; errors := [E_empty] |}.
Proof.
  rewrite <- strip_nil.
  pose proof (str_empty_strip u) as Hblank.
  unfold validate_username.
  destruct (str_empty u || str_empty (strip u)).
  - split; [reflexivity | intros _; apply Hblank; reflexivity].
  - split; [intros Hs; apply Hblank in Hs; discriminate Hs|].
    intros Heq. exfalso. apply (f_equal errors) in Heq. revert Heq.
    destruct (length u <? 2); [|destruct (30 <? length u)];
      destruct (str_isdigit u); destruct (str_isalnum u); unfold append; simpl;
      intros Heq; refute_by_decide Heq.
Qed.

(** X3: the list of errors never holds a message twice, never holds both
    length messages, and has at most three messages. *)
Theorem X3_errors_are_few_and_distinct (u : list char) :
  NoDup (errors (validate_username u)) ∧
  length (errors (validate_username u)) ≤ 3 ∧
  ¬ (E_short ∈ errors (validate_username u) ∧ E_long ∈ errors (validate_username u)).
Proof.
  unfold validate_username.
  destruct (str_empty u || str_empty (strip u));
    [|destruct (length u <? 2); [|destruct (30 <? length u)];
      destruct (str_isdigit u); destruct (str_isalnum u)];
    unfold append; simpl;
    (split_and!;
     [ by_decide | lia
     | intros [H1 H2]; first [refute_by_decide H1 | refute_by_decide H2] ]).
Qed.

Lemma isdigit_isalnum (u : list char) :
  (∀ c, isdigit c = true → isalnum c = true) →
  str_isdigit u = true → str_isalnum u = true.
Proof.
  intros Hda. unfold str_isdigit, str_isalnum.
  rewrite !andb_true_iff, !forallb_forall. intros [Hne Hd].
  split; [exact Hne|]. intros c Hc. apply Hda, Hd, Hc.
Qed.

(** X4: when every digit character is alphanumeric, as in the tables of
    Python, a name of digits only is never also reported as not
    alphanumeric, and no name gets more than two messages. *)
Theorem X4_digit_names_are_alphanumeric (u : list char) :
  (∀ c, isdigit c = true → isalnum c = true) →
  (E_digits ∈ errors (validate_username u) → E_alnum ∉ errors (validate_username u)) ∧
  length (errors (validate_username u)) ≤ 2.
Proof.
  intros Hda. pose proof (isdigit_isalnum u Hda) as Himp.
  unfold validate_username.
  destruct (str_empty u || str_empty (strip u));
    [|destruct (length u <? 2); [|destruct (30 <? length u)];
      destruct (str_isdigit u); destruct (str_isalnum u)];
    unfold append; simpl;
    try (specialize (Himp eq_refl); discriminate Himp);
    (split; [intros Hd Ha; first [refute_by_decide Hd | refute_by_decide Ha] | lia]).
Qed.

(** A name passes only if [isalnum()] holds for it. *)
Lemma valid_is_alnum (u : list char) :
  valid (validate_username u) = true → str_isalnum u = true.
Proof.
  unfold validate_username.
  destruct (str_empty u || str_empty (strip u)); [discriminate|].
  destruct (length u <? 2); [|destruct (30 <? length u)];
    destruct (str_isdigit u); destruct (str_isalnum u); unfold append; simpl;
    first [reflexivity | discriminate].
Qed.

(** X5: the name is not trimmed before it is checked.  When no whitespace
    character is alphanumeric, as in the tables of Python, a name that holds
    a whitespace character anywhere, leading and trailing ones included, is
    not valid. *)
Theorem X5_names_with_whitespace_are_rejected (u : list char) (c : char) :
  (∀ c, isspace c = true → isalnum c = false) →
  c ∈ u → isspace c = true →
  valid (validate_username u) = false.
Proof.
  intros Hsa Hin Hc.
  destruct (valid (validate_username u)) eqn:Hv; [exfalso|reflexivity].
  apply valid_is_alnum in Hv. unfold str_isalnum in Hv.
  apply andb_true_iff in Hv as [_ Hall]. rewrite forallb_forall in Hall.
  apply list_elem_of_In in Hin. specialize (Hall c Hin).
  rewrite (Hsa c Hc) in Hall. discriminate Hall.
Qed.

End validate_username_errors.

Lemma X4_witness :
  (∀ c, ascii_isdigit c = true → ascii_isalnum c = true) ∧
  (E_digits ∈ errors (validate_ascii "1") → E_alnum ∉ errors (validate_ascii "1")) ∧
  length (errors (validate_ascii "1")) ≤ 2.
Proof.
  assert (∀ c, ascii_isdigit c = true → ascii_isalnum c = true) as Hda.
  { intros c Hc. unfold ascii_isalnum. rewrite Hc. reflexivity. }
  split; [exact Hda|].
  exact (X4_digit_names_are_alphanumeric (list_ascii_of_string "1") Hda).
Defined.

Lemma ascii_space_not_alnum (c : ascii) : ascii_isspace c = true → ascii_isalnum c = false.
Proof.
  unfold ascii_isspace, ascii_isalnum, ascii_isdigit, ascii_between.
  generalize (nat_of_ascii c). intros n Hn.
  rewrite !orb_true_iff, !andb_true_iff, !Nat.leb_le in Hn.
  apply not_true_is_false. rewrite !orb_true_iff, !andb_true_iff, !Nat.leb_le. lia.
Qed.

Lemma X5_witness :
  (∀ c, ascii_isspace c = true → ascii_isalnum c = false) ∧
  " "%char ∈ list_ascii_of_string " ab" ∧ ascii_isspace " " = true ∧
  valid (validate_ascii " ab") = false.
Proof.
  assert (" "%char ∈ list_ascii_of_string " ab") as Hin by (simpl; left).
  split; [exact ascii_space_not_alnum|]. split; [exact Hin|]. split; [reflexivity|].
  exact (X5_names_with_whitespace_are_rejected
           (list_ascii_of_string " ab") " "%char ascii_space_not_alnum Hin eq_refl).
Defined.

(** X6: the input column of the summary table never overflows: the shown
    text has at most 10 characters and keeps the first seven of the input,
    it is the input itself exactly for inputs of at most 10 characters, and
    the padded cell is always 14 characters wide. *)
Theorem X6_input_column_keeps_its_width {char : Type} (dot space : char) (s : list char) :
  length (display_input dot s) ≤ 10 ∧
  take 7 (display_input dot s) = take 7 s ∧
  (display_input dot s = s ↔ length s ≤ 10) ∧
  length (input_cell dot space s) = 14.
Proof.
  assert (length (display_input dot s) ≤ 10 ∧
          take 7 (display_input dot s) = take 7 s ∧
          (display_input dot s = s ↔ length s ≤ 10)) as (Hlen & Htake & Hsame).
  { unfold display_input. destruct (Nat.leb_spec (length s) 10) as [Hle|Hgt].
    - split; [exact Hle|]. split; [reflexivity|]. tauto.
    - assert (length (take 7 s ++ [dot; dot; dot]) = 10) as Hl.
      { rewrite length_app, length_take. cbn [length]. lia. }
      split; [lia|]. split.
      + rewrite take_app_le by (rewrite length_take; lia).
        rewrite take_take. reflexivity.
      + split; [|lia]. intros E. rewrite E in Hl. lia. }
  split; [exact Hlen|]. split; [exact Htake|]. split; [exact Hsame|].
  unfold input_cell, ljust. rewrite length_app, length_replicate. lia.
Qed.

(* ================================================================== *)
(** * Further properties of the control-flow graph *)
(* ================================================================== *)

(** X7: a walk that raises (visits node 3 or node 8) has run none of the
    nodes 9 to 14: no field is set, [updated_at] is untouched, nothing is
    committed or refreshed, and nothing is returned. *)
Theorem X7_errors_come_before_any_change (p : list nat) :
  is_walk p = true → 3 ∈ p ∨ 8 ∈ p →
  Forall (λ n, n ∉ [9; 10; 11; 12; 13; 14]) p.
Proof.
  intros Hw Hexc.
  assert (∀ n, n ∈ [9; 10; 11; 12; 13; 14] → 9 ≤ n ≤ 14) as Hrange.
  { intros n Hn. repeat (apply elem_of_cons in Hn as [->|Hn]; [lia|]).
    apply elem_of_nil in Hn. destruct Hn. }
  assert (∃ n, n ∈ p ∧ successors n = [] ∧ n < 9) as (n & Hn & Hterm & Hlow).
  { destruct Hexc; [exists 3 | exists 8]; repeat split; auto; lia. }
  apply list_elem_of_split in Hn as (l1 & l2 & ->).
  pose proof (walk_stops_at_terminal _ _ _ Hw Hterm) as ->.
  apply Forall_app. split.
  - apply Forall_forall. intros m Hm Hmut. apply Hrange in Hmut.
    apply list_elem_of_split in Hm as (m1 & m2 & ->).
    rewrite <- app_assoc in Hw. apply is_walk_app_r in Hw. simpl in Hw.
    apply (walk_stays (λ x, 9 ≤ x ≤ 14)) in Hw; [|intros x y Hx He; edge_cases He; lia|exact Hmut].
    rewrite Forall_app, Forall_singleton in Hw. lia.
  - apply Forall_singleton. intros Hmut. apply Hrange in Hmut. lia.
Qed.

Lemma X7_witness :
  is_walk path_3 = true ∧ (3 ∈ path_3 ∨ 8 ∈ path_3) ∧
  Forall (λ n, n ∉ [9; 10; 11; 12; 13; 14]) path_3.
Proof.
  assert (8 ∈ path_3) as H8 by by_decide.
  split; [reflexivity|]. split; [right; exact H8|].
  exact (X7_errors_come_before_any_change path_3 eq_refl (or_intror H8)).
Defined.

(** X8: the loop is the only way back.  A walk that never takes the edge
    from node 10 to node 9 visits nodes of strictly increasing number, so it
    visits no node twice. *)
Theorem X8_only_the_loop_edge_goes_back (p : list nat) :
  is_walk p = true → (10, 9) ∉ consecutive_pairs p →
  StronglySorted lt p ∧ NoDup p.
Proof.
  intros Hw Hback.
  assert (Sorted lt p) as Hsorted.
  { revert Hw Hback. induction p as [|a [|b p] IH]; intros Hw Hback.
    - constructor.
    - repeat constructor.
    - change (has_edge a b && is_walk (b :: p) = true) in Hw.
      apply andb_true_iff in Hw as [He Hw].
      change ((10, 9) ∉ (a, b) :: consecutive_pairs (b :: p)) in Hback.
      apply not_elem_of_cons in Hback as [Hne Hback].
      constructor; [apply IH; assumption|].
      constructor. edge_cases He; first [lia | congruence]. }
  apply Sorted_StronglySorted in Hsorted; [|intros x y z; lia].
  split; [exact Hsorted|].
  clear Hw Hback. induction Hsorted as [|a l Hs IH Hall]; constructor; [|exact IH].
  intros Hin. rewrite List.Forall_forall in Hall.
  apply list_elem_of_In in Hin. specialize (Hall a Hin). lia.
Qed.

Lemma X8_witness :
  is_walk path_2 = true ∧ ((10, 9) ∉ consecutive_pairs path_2) ∧
  StronglySorted lt path_2 ∧ NoDup path_2.
Proof.
  assert ((10, 9) ∉ consecutive_pairs path_2) as Hback by by_decide.
  split; [reflexivity|]. split; [exact Hback|].
  exact (X8_only_the_loop_edge_goes_back path_2 eq_refl Hback).
Defined.

(** A walk that avoids a node [d] stays in every set that the edges leave
    only through [d]. *)
Lemma walk_avoiding (S : nat → Prop) (d a : nat) (l : list nat) :
  (∀ x y, S x → has_edge x y = true → y ≠ d → S y) →
  S a → is_walk (a :: l) = true → d ∉ l → Forall S l.
Proof.
  intros Hclosed. revert a. induction l as [|b l IH]; intros a Ha Hw Hd.
  - constructor.
  - change (has_edge a b && is_walk (b :: l) = true) in Hw.
    apply andb_true_iff in Hw as [He Hw].
    apply not_elem_of_cons in Hd as [Hne Hd].
    assert (S b) as Hb by (apply (Hclosed a b); auto).
    constructor; [exact Hb|]. apply (IH b); assumption.
Qed.

(** X9: on every walk from the entry node, [session.commit()] (node 12) is
    reached only after the null check (2), [model_dump()] (4), the lookup of
    'email' (5), the loop header (9) and the update of [updated_at] (11). *)
Theorem X9_commit_comes_after_the_checks (l1 l2 : list nat) :
  is_walk (1 :: l1 ++ 12 :: l2) = true →
  Forall (λ d, d ∈ l1) [2; 4; 5; 9; 11].
Proof.
  intros Hw.
  assert (is_walk (1 :: l1 ++ [12]) = true) as Hw1.
  { apply (is_walk_app_l _ l2). simpl. rewrite <- app_assoc. exact Hw. }
  apply Forall_forall. intros d Hd.
  destruct (decide (d ∈ l1)) as [Hin|Hout]; [exact Hin|exfalso].
  assert (d < 12) as Hlt.
  { repeat (apply elem_of_cons in Hd as [->|Hd]; [lia|]). apply elem_of_nil in Hd. destruct Hd. }
  apply (walk_avoiding (λ x, x < d) d) in Hw1.
  - rewrite Forall_app, Forall_singleton in Hw1. lia.
  - intros x y Hx He Hy.
    repeat (apply elem_of_cons in Hd as [->|Hd]; [edge_cases He; lia|]).
    apply elem_of_nil in Hd. destruct Hd.
  - repeat (apply elem_of_cons in Hd as [->|Hd]; [lia|]). apply elem_of_nil in Hd. destruct Hd.
  - rewrite elem_of_app, list_elem_of_singleton. intros [Hin|Heq]; [auto | lia].
Qed.

Lemma X9_witness :
  is_walk (1 :: [2; 4; 5; 9; 11] ++ 12 :: [13; 14]) = true ∧
  Forall (λ d, d ∈ [2; 4; 5; 9; 11]) [2; 4; 5; 9; 11].
Proof.
  split; [reflexivity|].
  exact (X9_commit_comes_after_the_checks [2; 4; 5; 9; 11] [13; 14] eq_refl).
Defined.

(** One step along a walk from a known node: it ends there, or it goes on
    along one of the edges that leave the node. *)
Ltac walk_step Hw Hterm Hloop :=
  match type of Hw with
  | is_walk (?a :: ?r) = true =>
      let b := fresh "b" in
      let He := fresh "He" in
      destruct r as [|b r];
      [ first [ by_decide | exfalso; vm_compute in Hterm; discriminate Hterm ]
      | change (has_edge a b && is_walk (b :: r) = true) in Hw;
        apply andb_true_iff in Hw as [He Hw];
        edge_cases He;
        try (exfalso; apply Hloop; rewrite !elem_of_cons; tauto) ]
  end.

(** X10: the complete paths that skip the loop body are the documented
    paths 1, 2, 3 and 5 and no others: a walk from node 1 to a node without
    outgoing edges that does not visit node 10 is one of these four. *)
Theorem X10_complete_paths_without_the_loop_body (p : list nat) :
  complete_path p = true → 10 ∉ p →
  p ∈ [path_1; path_2; path_3; path_5].
Proof.
  unfold complete_path. rewrite !andb_true_iff, bool_decide_eq_true.
  intros [[Hw Hhead] Hterm] Hloop.
  destruct p as [|a p]; [discriminate Hhead|].
  injection Hhead as ->. unfold entry in *.
  do 12 (try walk_step Hw Hterm Hloop).
Qed.

Lemma X10_witness :
  complete_path path_5 = true ∧ (10 ∉ path_5) ∧
  path_5 ∈ [path_1; path_2; path_3; path_5].
Proof.
  assert (10 ∉ path_5) as Hloop by by_decide.
  split; [reflexivity|]. split; [exact Hloop|].
  exact (X10_complete_paths_without_the_loop_body path_5 eq_refl Hloop).
Defined.

(** X11: the special cases of the arrow drawing agree with the graph.  An
    edge is drawn red exactly when it enters an exception node, purple
    exactly when it goes back to a node of smaller number, and blue exactly
    when it is the edge from node 5 to node 9 that skips the email check. *)
Theorem X11_arrow_colours_follow_the_graph (a b : nat) :
  has_edge a b = true →
  (arrow_color a b = "red" ↔ node_kind b = Exception) ∧
  (arrow_color a b = "purple" ↔ b < a) ∧
  (arrow_color a b = "blue" ↔ a = 5 ∧ b = 9).
Proof.
  intros He. edge_cases He;
    (split_and!; split; intros Hx;
     first [ reflexivity | lia | split; reflexivity
           | exfalso; first [ lia | vm_compute in Hx; discriminate Hx ] ]).
Qed.

Lemma X11_witness :
  has_edge 2 3 = true ∧
  (arrow_color 2 3 = "red" ↔ node_kind 3 = Exception) ∧
  (arrow_color 2 3 = "purple" ↔ 3 < 2) ∧
  (arrow_color 2 3 = "blue" ↔ 2 = 5 ∧ 3 = 9).
Proof.
  split; [reflexivity|].
  exact (X11_arrow_colours_follow_the_graph 2 3 eq_refl).
Defined.

(* ================================================================== *)
(** * Further properties of the scan and the metrics *)
(* ================================================================== *)

(** No rule matches a path exactly when it holds none of the ten
    substrings. *)
Lemma first_matching_rule_None (p : string) :
  first_matching_rule p = None ↔ unclassified p = true.
Proof.
  unfold first_matching_rule, unclassified, rules, needles. simpl.
  repeat match goal with
         | |- context [contains ?n p] =>
             destruct (contains n p); simpl; try (split; discriminate)
         end.
  split; reflexivity.
Qed.

(** A scanned path adds one to exactly one of the nine counts: the eight
    lists and the paths left out. *)
Lemma scan_counts_each_path_once (tree : file_tree) :
  sum_nat (map (λ key, length (assigned key tree)) component_keys)
  + length (List.filter unclassified tree) = length tree.
Proof.
  unfold sum_nat, component_keys, assigned. simpl.
  induction tree as [|p tree IH]; [reflexivity|]. simpl.
  pose proof (first_matching_rule_None p) as Hnone.
  destruct (first_matching_rule p) as [key|] eqn:Hr.
  - assert (unclassified p = false) as ->.
    { destruct (unclassified p); [|reflexivity]. destruct Hnone as [_ Hn].
      specialize (Hn eq_refl). discriminate Hn. }
    apply first_matching_rule_key in Hr.
    repeat (apply elem_of_cons in Hr as [->|Hr];
            [repeat (case_bool_decide; [try discriminate | try congruence]);
             simpl; lia|]).
    apply elem_of_nil in Hr. destruct Hr.
  - rewrite (proj1 Hnone eq_refl).
    repeat (case_bool_decide; [discriminate|]). simpl. lia.
Qed.

(** X12: the scan loses no file and files none twice: the lengths of the
    eight lists and the number of scanned paths that hold none of the ten
    substrings add up to the number of scanned paths. *)
Theorem X12_scan_accounts_for_every_file (tree : file_tree) :
  ∃ components,
    analyze_project_structure tree = Some components ∧
    sum_nat (map (λ key, length (components !!! key)) component_keys)
    + length (List.filter unclassified tree) = length tree.
Proof.
  destruct (analyze_project_structure_scanned tree) as (components & Ha & Hs).
  exists components. split; [exact Ha|].
  etransitivity; [|apply scan_counts_each_path_once].
  f_equal. f_equal. apply map_ext_in. intros key Hkey.
  unfold lookup_total, map_lookup_total.
  rewrite (scanned_lookup tree components key Hs) by (apply list_elem_of_In, Hkey).
  reflexivity.
Qed.

(** X13: the metrics never count more files than were scanned;
    [total_files] falls short of the number of scanned paths by exactly the
    files of [config] and [tests] and the paths that no rule matches. *)
Theorem X13_total_files_is_bounded_by_the_scan (tree : file_tree) :
  ∃ components m,
    analyze_project_structure tree = Some components ∧
    calculate_testing_metrics tree = Some m ∧
    total_files m + length (components !!! "config") + length (components !!! "tests")
    + length (List.filter unclassified tree) = length tree ∧
    high_priority_files m ≤ total_files m ≤ length tree.
Proof.
  destruct (analyze_project_structure_scanned tree) as (components & Ha & Hs).
  exists components. eexists. split; [exact Ha|].
  split; [apply calculate_testing_metrics_value|].
  pose proof (scan_counts_each_path_once tree) as Hcount.
  unfold sum_nat, component_keys in Hcount. simpl in Hcount.
  unfold lookup_total, map_lookup_total.
  rewrite !(scanned_lookup tree components _ Hs) by by_decide.
  simpl. lia.
Qed.

Lemma assigned_Permutation (key : string) (t1 t2 : file_tree) :
  t1 ≡ₚ t2 → assigned key t1 ≡ₚ assigned key t2.
Proof.
  unfold assigned. induction 1 as [|p l1 l2 _ IH|p q l|l1 l2 l3 _ IH1 _ IH2]; simpl.
  - reflexivity.
  - destruct (bool_decide _); [constructor|]; exact IH.
  - destruct (bool_decide (_ p = _)), (bool_decide (_ q = _)); try reflexivity.
    apply perm_swap.
  - etransitivity; eassumption.
Qed.

(** X14: the metrics do not depend on the order in which the tree is
    walked: two scans of the same files in different orders give the same
    metrics. *)
Theorem X14_metrics_ignore_the_scan_order (t1 t2 : file_tree) :
  t1 ≡ₚ t2 → calculate_testing_metrics t1 = calculate_testing_metrics t2.
Proof.
  intros Hperm. rewrite !calculate_testing_metrics_value.
  assert (∀ key, length (assigned key t1) = length (assigned key t2)) as Hlen.
  { intros key. apply Permutation_length, assigned_Permutation, Hperm. }
  rewrite !Hlen. reflexivity.
Qed.

Lemma X14_witness :
  ["main.py"; "app/models/user.py"] ≡ₚ ["app/models/user.py"; "main.py"] ∧
  calculate_testing_metrics ["main.py"; "app/models/user.py"] =
  calculate_testing_metrics ["app/models/user.py"; "main.py"].
Proof.
  assert (["main.py"; "app/models/user.py"] ≡ₚ ["app/models/user.py"; "main.py"]) as Hperm
    by apply perm_swap.
  split; [exact Hperm|].
  exact (X14_metrics_ignore_the_scan_order _ _ Hperm).
Defined.

(** X15: scanning two batches of files one after the other gives, list by
    list, the files of the first batch followed by the files of the second:
    every list keeps the scan order. *)
Theorem X15_scan_of_two_batches (t1 t2 : file_tree) :
  ∃ c1 c2 c12,
    analyze_project_structure t1 = Some c1 ∧
    analyze_project_structure t2 = Some c2 ∧
    analyze_project_structure (t1 ++ t2) = Some c12 ∧
    ∀ key, c12 !!! key = c1 !!! key ++ c2 !!! key.
Proof.
  destruct (analyze_project_structure_scanned t1) as (c1 & Ha1 & Hs1).
  destruct (analyze_project_structure_scanned t2) as (c2 & Ha2 & Hs2).
  destruct (analyze_project_structure_scanned (t1 ++ t2)) as (c12 & Ha12 & Hs12).
  exists c1, c2, c12. repeat (split; [assumption|]).
  intros key. unfold lookup_total, map_lookup_total.
  rewrite (Hs1 key), (Hs2 key), (Hs12 key).
  case_bool_decide; simpl; [|reflexivity].
  unfold assigned. apply List.filter_app.
Qed.

Lemma filter_filter_implied {A : Type} (f g : A → bool) (l : list A) :
  (∀ x, f x = true → g x = true) →
  List.filter f (List.filter g l) = List.filter f l.
Proof.
  intros Himp. induction l as [|x l IH]; simpl; [reflexivity|].
  destruct (g x) eqn:Hg; simpl.
  - rewrite IH. reflexivity.
  - destruct (f x) eqn:Hf; [|exact IH].
    apply Himp in Hf. congruence.
Qed.

(** The report is a function of the result of the scan. *)
Lemma report_of_equal_scans (t1 t2 : file_tree) :
  analyze_project_structure t1 = analyze_project_structure t2 →
  print_comprehensive_report t1 = print_comprehensive_report t2.
Proof.
  intros Heq.
  unfold print_comprehensive_report, calculate_testing_metrics, generate_testing_strategy.
  rewrite Heq. reflexivity.
Qed.

(** X16: files that hold none of the ten substrings leave no trace: the
    report of a tree is the report of the tree without them. *)
Theorem X16_unclassified_files_leave_no_trace (tree : file_tree) :
  print_comprehensive_report (List.filter (λ p, negb (unclassified p)) tree) =
  print_comprehensive_report tree.
Proof.
  apply report_of_equal_scans.
  destruct (analyze_project_structure_scanned tree) as (c & -> & Hs).
  destruct (analyze_project_structure_scanned (List.filter (λ p, negb (unclassified p)) tree))
    as (c' & -> & Hs').
  f_equal. apply map_eq. intros key. rewrite (Hs key), (Hs' key).
  case_bool_decide; [|reflexivity]. f_equal.
  unfold assigned. apply filter_filter_implied.
  intros p Hp. apply bool_decide_eq_true in Hp.
  destruct (unclassified p) eqn:Hu; [|reflexivity].
  apply first_matching_rule_None in Hu. congruence.
Qed.

(** [contains] is the substring test of Python's [in]. *)
Lemma startswith_iff (prefix s : string) :
  startswith prefix s = true ↔ ∃ rest, s = prefix +:+ rest.
Proof.
  revert s. induction prefix as [|a prefix IH]; intros s; simpl.
  - split; [intros _; exists s; reflexivity | reflexivity].
  - destruct s as [|b s].
    + split; [discriminate | intros [rest Hrest]; discriminate Hrest].
    + rewrite andb_true_iff, Ascii.eqb_eq, IH. split.
      * intros [-> [rest ->]]. exists rest. reflexivity.
      * intros [rest [= -> ->]]. split; [reflexivity | exists rest; reflexivity].
Qed.

Lemma contains_unfold (needle haystack : string) :
  contains needle haystack =
  startswith needle haystack ||
  match haystack with
  | EmptyString => false
  | String _ rest => contains needle rest
  end.
Proof. destruct haystack; reflexivity. Qed.

Lemma contains_iff (needle haystack : string) :
  contains needle haystack = true ↔
  ∃ before after, haystack = before +:+ (needle +:+ after).
Proof.
  induction haystack as [|c haystack IH]; rewrite contains_unfold, orb_true_iff.
  - rewrite startswith_iff. split.
    + intros [[rest Hrest]|Hf]; [|discriminate Hf]. exists "", rest. exact Hrest.
    + intros (before & after & Heq). left. destruct before; [|discriminate Heq].
      exists after. exact Heq.
  - rewrite startswith_iff, IH. split.
    + intros [[rest Hrest]|(before & after & ->)].
      * exists "", rest. exact Hrest.
      * exists (String c before), after. reflexivity.
    + intros (before & after & Heq). destruct before as [|b before].
      * left. exists after. exact Heq.
      * right. injection Heq as -> ->. exists before, after. reflexivity.
Qed.

(** X17: a path with "models" anywhere in it, whatever comes before and
    after, is filed under [models] and under no other key, also when it
    names a test, a repository or a config file. *)
Theorem X17_models_anywhere_in_the_path_wins (tree : file_tree) (before after : string) :
  (before +:+ ("models" +:+ after)) ∈ tree →
  ∃ components,
    analyze_project_structure tree = Some components ∧
    (before +:+ ("models" +:+ after)) ∈ components !!! "models" ∧
    ∀ key, key ≠ "models" → (before +:+ ("models" +:+ after)) ∉ components !!! key.
Proof.
  intros Hin.
  assert (first_matching_rule (before +:+ ("models" +:+ after)) = Some "models") as Hr.
  { unfold first_matching_rule, rules. simpl.
    rewrite (proj2 (contains_iff "models" _)) by (exists before, after; reflexivity).
    reflexivity. }
  destruct (analyze_project_structure_scanned tree) as (components & Ha & Hs).
  exists components. split; [exact Ha|].
  unfold lookup_total, map_lookup_total. split.
  - rewrite (Hs "models"). simpl. apply elem_of_assigned. auto.
  - intros key Hkey. rewrite (Hs key). case_bool_decide; simpl.
    + rewrite elem_of_assigned. intros [_ Hr']. congruence.
    + apply not_elem_of_nil.
Qed.

Lemma X17_witness :
  ("tests/" +:+ ("models" +:+ "/test_api_config.py")) ∈ ["tests/models/test_api_config.py"] ∧
  ∃ components,
    analyze_project_structure ["tests/models/test_api_config.py"] = Some components ∧
    ("tests/" +:+ ("models" +:+ "/test_api_config.py")) ∈ components !!! "models" ∧
    ∀ key, key ≠ "models" →
           ("tests/" +:+ ("models" +:+ "/test_api_config.py")) ∉ components !!! key.
Proof.
  assert (("tests/" +:+ ("models" +:+ "/test_api_config.py"))
            ∈ ["tests/models/test_api_config.py"]) as Hin by (simpl; left).
  split; [exact Hin|].
  exact (X17_models_anywhere_in_the_path_wins
           ["tests/models/test_api_config.py"] "tests/" "/test_api_config.py" Hin).
Defined.

Lemma length_concat_map_le {A B : Type} (f : A → list B) (n : nat) (l : list A) :
  (∀ x, length (f x) ≤ n) → length (concat (map f l)) ≤ n * length l.
Proof.
  intros Hf. induction l as [|x l IH]; simpl; [lia|].
  rewrite length_app. specialize (Hf x). lia.
Qed.

(** A component takes at most five lines of the first section: its count,
    its first three files, and the number of the files not shown. *)
Lemma length_print_component (component : string) (files : list string) :
  length (print_component component files) ≤ 5.
Proof.
  unfold print_component. destruct files as [|file files]; [simpl; lia|].
  rewrite !length_app, length_map, length_take.
  destruct (3 <? length (file :: files)); cbn [length]; lia.
Qed.

Lemma length_print_strategy (component : string) (details : component_strategy) :
  length (print_strategy component details) ≤ 6.
Proof. unfold print_strategy. destruct (files details); simpl; lia. Qed.

(** X18: the report stays short however large the tree is: it always has
    at least 63 and at most 139 printed lines. *)
Theorem X18_report_length_is_bounded (tree : file_tree) :
  ∃ lines,
    print_comprehensive_report tree = Some lines ∧
    63 ≤ length lines ≤ 139.
Proof.
  unfold print_comprehensive_report.
  rewrite calculate_testing_metrics_value.
  unfold generate_testing_strategy.
  destruct (analyze_project_structure_scanned tree) as (components & -> & Hs).
  assert (∀ key, bool_decide (key ∈ component_keys) = true →
                 components !! key = Some (assigned key tree)) as Hk.
  { intros key Hkey. apply scanned_lookup; [exact Hs | exact (bool_decide_eq_true_1 _ Hkey)]. }
  cbn -[print_component print_strategy print_metrics print_tests_and_advice str_repeat].
  rewrite !Hk by reflexivity.
  cbn -[print_component print_strategy print_metrics print_tests_and_advice str_repeat].
  eexists. split; [reflexivity|].
  assert (length print_tests_and_advice = 44) as Htail by (vm_compute; reflexivity).
  repeat match goal with
         | |- context [print_strategy ?c ?d] =>
             let l := fresh "section" in
             pose proof (length_print_strategy c d);
             set (l := print_strategy c d) in *
         end.
  repeat match goal with
         | |- context [print_component ?c ?d] =>
             let l := fresh "section" in
             pose proof (length_print_component c d);
             set (l := print_component c d) in *
         end.
  unfold print_metrics.
  repeat first [progress cbn [length estimated_coverage]
               | rewrite length_app | rewrite length_map].
  rewrite Htail. lia.
Qed.

(* ================================================================== *)
(** * The test suite of [validate_username] *)
(* ================================================================== *)

(** X19: every test of test_simple_validation.py passes: the six black-box
    tests, the summary table and the path-coverage test all hold of
    [validate_username], with the messages they look for. *)
Theorem X19_the_tests_of_validate_username_pass :
  test_valid_usernames_ec1 = true ∧
  test_empty_usernames_ec2 = true ∧
  test_numeric_only_usernames_ec3 = true ∧
  test_special_characters_ec4 = true ∧
  test_boundary_values = true ∧
  test_edge_cases = true ∧
  test_summary_table = true ∧
  test_all_paths_coverage = true.
Proof. vm_compute. repeat split; reflexivity. Qed.
